(** * Interactive sales dashboard: the filter / aggregate / rank pipeline

    A shallow embedding of the two dashboard scripts [src/3.py] and
    [src/31.py].  Both scripts are straight-line pandas programs: they load
    a table, keep the rows selected by the sidebar widgets, and feed sums,
    group-wise sums, a ranking and a correlation matrix to the charts.

    The table is a list of rows in file order.  A column ([df["Region"]]) is
    the list of that field, a boolean mask is a list of booleans, and each
    pandas call used by the scripts is a function on those lists, written
    out by what pandas computes.

    Modelling conventions
    - [Date] is a calendar date (year, month, day), the canonical form the
      record store hands to the pipeline; timestamps carry no time of day.
    - [UnitPrice] and [TotalSales] are read as the exact rationals that the
      binary64 values of the columns are, and [Pandas.sum] adds them
      exactly.  Statements that compare sums taken in different orders are
      decided by rounding: for those the sums are embedded a second time,
      in binary64, in [Binary64].  The one non-finite value the scripts can
      produce from finite data, NaN, is explicit in [float64].
    - [UnitsSold] is an int64 column; its sum wraps at 64 bits.
    - Strings are compared bytewise, which on UTF-8 text is the code-point
      order Python uses. *)

From Stdlib Require Import List Bool ZArith QArith Qround String Ascii Lia.
From Stdlib Require Import Permutation Sorted Orders OrdersEx Mergesort.
From Stdlib Require Import Setoid Morphisms RelationClasses.
From Stdlib Require DecimalString Qabs.
From Stdlib Require Import Floats.
Import ListNotations.

Local Open Scope Z_scope.

(** ** Data model *)

Record Timestamp : Type := mkTimestamp {
  year : Z;
  month : Z;
  day : Z
}.

Record Row : Type := mkRow {
  Date : Timestamp;
  Region : string;
  Country : string;
  ProductCategory : string;
  Product : string;
  UnitsSold : Z;
  UnitPrice : Q;
  TotalSales : Q
}.

Definition DataFrame : Type := list Row.

Definition Series (A : Type) : Type := list A.

(** The result of a floating-point reduction that may be undefined. *)
Inductive float64 : Type :=
  | NaN : float64
  | Fin : Q -> float64.

(** The values the sidebar widgets hold when the script body runs. *)
Record FilterSpec : Type := mkFilterSpec {
  regions : list string;
  countries : list string;
  categories : list string;
  start_date : Timestamp;
  end_date : Timestamp
}.

(** The options of the "Select Drill Level" radio and of the
    "Aggregate Sales By" select box. *)
Inductive Dimension : Type :=
  | ByRegion
  | ByCountry
  | ByProductCategory
  | ByProduct.

(** The options of the "Aggregate By" select box. *)
Inductive TimeAgg : Type :=
  | Day
  | Month.

(** ** Orders on keys *)

Definition ts_compare (a b : Timestamp) : comparison :=
  match year a ?= year b with
  | Eq => match month a ?= month b with
          | Eq => day a ?= day b
          | c => c
          end
  | c => c
  end.

Definition ts_leb (a b : Timestamp) : bool :=
  match ts_compare a b with Gt => false | _ => true end.

Definition ts_eqb (a b : Timestamp) : bool :=
  match ts_compare a b with Eq => true | _ => false end.

Definition ts_lt (a b : Timestamp) : Prop := ts_compare a b = Lt.

Definition ts_le (a b : Timestamp) : Prop := ts_compare a b <> Gt.

Definition str_leb (a b : string) : bool :=
  match String_as_OT.compare a b with Gt => false | _ => true end.

Definition str_lt (a b : string) : Prop := String_as_OT.compare a b = Lt.

Lemma ts_leb_total (a b : Timestamp) :
  ts_leb a b = true \/ ts_leb b a = true.
Proof.
  unfold ts_leb, ts_compare.
  destruct (Z.compare_spec (year a) (year b)),
           (Z.compare_spec (year b) (year a)); auto; try lia.
  destruct (Z.compare_spec (month a) (month b)),
           (Z.compare_spec (month b) (month a)); auto; try lia.
  destruct (Z.compare_spec (day a) (day b)),
           (Z.compare_spec (day b) (day a)); auto; try lia.
Qed.

Lemma str_leb_total (a b : string) :
  str_leb a b = true \/ str_leb b a = true.
Proof.
  unfold str_leb.
  destruct (String_as_OT.compare_spec a b) as [E | L | G]; auto.
  right.
  destruct (String_as_OT.compare_spec b a) as [E' | L' | G']; auto.
  exfalso. exact (StrictOrder_Irreflexive _ (StrictOrder_Transitive _ _ _ G G')).
Qed.

Module TimestampOrder <: TotalLeBool.
Definition t := Timestamp.
Definition leb := ts_leb.
Definition leb_total : forall a b, leb a b = true \/ leb b a = true :=
  ts_leb_total.
End TimestampOrder.

Module StringOrder <: TotalLeBool.
Definition t := string.
Definition leb := str_leb.
Definition leb_total : forall a b, leb a b = true \/ leb b a = true :=
  str_leb_total.
End StringOrder.

Module TimestampSort := Sort TimestampOrder.
Module StringSort := Sort StringOrder.

(** Rows of a group-wise sum, compared by the sum alone. *)

Lemma value_leb_total (a b : string * Q) :
  Qle_bool (snd a) (snd b) = true \/ Qle_bool (snd b) (snd a) = true.
Proof.
  rewrite !Qle_bool_iff.
  destruct (Qlt_le_dec (snd b) (snd a)) as [H | H]; [right | left].
  - now apply Qlt_le_weak.
  - assumption.
Qed.

Module ValueOrder <: TotalLeBool.
Definition t := (string * Q)%type.
Definition leb (a b : t) := Qle_bool (snd a) (snd b).
Definition leb_total : forall a b, leb a b = true \/ leb b a = true :=
  value_leb_total.
End ValueOrder.

Module ValueSort := Sort ValueOrder.

(** ** Outcomes of a statement *)

(** What a run of the script can be stopped by.  [IndexingError] is what
    boolean indexing raises on a mask that does not fit the frame;
    [InsufficientDataError] is the failure the specification names for the
    correlation view. *)
Inductive exn : Type :=
  | IndexingError
  | InsufficientDataError.

Inductive result (A : Type) : Type :=
  | Ok : A -> result A
  | Raise : exn -> result A.

Arguments Ok {A} _.
Arguments Raise {A} _.

Definition bind {A B : Type} (m : result A) (f : A -> result B) : result B :=
  match m with
  | Ok a => f a
  | Raise e => Raise e
  end.

(** ** The pandas operations the scripts call *)

Module Pandas.

(** [df[name]]: one column of the frame. *)
Definition col {A : Type} (f : Row -> A) (df : DataFrame) : Series A :=
  map f df.

(** [s.isin(values)]: row-wise membership in the selected values. *)
Definition isin (s : Series string) (values : list string) : Series bool :=
  map (fun x => existsb (String.eqb x) values) s.

(** [s.between(left, right)]: both bounds inclusive (the default). *)
Definition between (s : Series Timestamp) (left right : Timestamp)
  : Series bool :=
  map (fun x => ts_leb left x && ts_leb x right) s.

(** [a & b] on two masks over the same index: element by element. *)
Fixpoint mask_and (a b : Series bool) : Series bool :=
  match a, b with
  | x :: a', y :: b' => (x && y) :: mask_and a' b'
  | _, _ => []
  end.

(** [df[mask]]: the rows whose mask entry is true, in frame order.  A mask
    that does not cover the frame exactly is refused. *)
Fixpoint getitem_mask (df : DataFrame) (mask : Series bool)
  : result DataFrame :=
  match df, mask with
  | [], [] => Ok []
  | r :: df', b :: mask' =>
      bind (getitem_mask df' mask')
           (fun rest => Ok (if b then r :: rest else rest))
  | _, _ => Raise IndexingError
  end.

(** [s.sum()] on a float column: left to right from zero. *)
Definition sum (s : Series Q) : Q := fold_left Qplus s 0%Q.

(** int64 arithmetic keeps the low 64 bits, read as a signed number. *)
Definition wrap64 (z : Z) : Z := (z + 2 ^ 63) mod 2 ^ 64 - 2 ^ 63.

(** [s.sum()] on an int64 column. *)
Definition sum_int (s : Series Z) : Z :=
  fold_left (fun acc x => wrap64 (acc + x)) s 0.

(** [s.mean()]: the sum over the count; NaN when there is no value to
    average (pandas returns NaN there, it does not raise). *)
Definition mean (s : Series Q) : float64 :=
  match s with
  | [] => NaN
  | _ => Fin (sum s / inject_Z (Z.of_nat (List.length s)))
  end.

(** [s.head(n)]: the first [n] entries, all of them when there are fewer. *)
Definition head {A : Type} (n : nat) (s : list A) : list A := firstn n s.

(** [df.groupby(key)[value].sum()] with the default [sort=True]: the
    distinct keys in the order of their first appearance, sorted, and for
    each the sum of the values of the rows carrying it.  [as_index=False]
    only changes whether the key is a column or the index; either way the
    result is the list of (key, sum) rows. *)
Section GroupBy.
Context {R K : Type}.
Variable eqb : K -> K -> bool.
Variable sort : list K -> list K.

(** Distinct values in order of first appearance. *)
Fixpoint unique (seen keys : list K) : list K :=
  match keys with
  | [] => []
  | k :: rest =>
      if existsb (eqb k) seen then unique seen rest
      else k :: unique (k :: seen) rest
  end.

Definition group (key : R -> K) (k : K) (df : list R) : list R :=
  filter (fun r => eqb (key r) k) df.

Definition groupby_sum (key : R -> K) (value : R -> Q) (df : list R)
  : list (K * Q) :=
  map (fun k => (k, sum (map value (group key k df))))
      (sort (unique [] (map key df))).
End GroupBy.

(** [s.dt.to_period("M").dt.to_timestamp()]: the first day of the month. *)
Definition to_period_M_to_timestamp (d : Timestamp) : Timestamp :=
  mkTimestamp (year d) (month d) 1.

(** [s.sort_values(ascending=False)] runs with the default
    [kind="quicksort"], which pandas documents as not stable: the result is
    the entries in non-increasing order of value, and nothing is promised
    about how entries of equal value follow each other.  An implementation
    of the call is any function with that contract. *)
Record SortValues : Type := mkSortValues {
  sort_values_desc : list (string * Q) -> list (string * Q);
  sort_values_perm :
    forall s, Permutation s (sort_values_desc s);
  sort_values_sorted :
    forall s, StronglySorted (fun a b => (snd b <= snd a)%Q)
                             (sort_values_desc s)
}.

(** One pair of columns of [DataFrame.corr()] (Pearson, [min_periods=1]):
    a single pass that updates the running means, the sums of squared
    deviations and the co-deviation. *)
Record corr_acc : Type := mkCorrAcc {
  nobs : Z;
  meanx : Q;
  meany : Q;
  ssqdmx : Q;
  ssqdmy : Q;
  covxy : Q
}.

Definition corr_step (a : corr_acc) (v : Q * Q) : corr_acc :=
  let vx := fst v in
  let vy := snd v in
  let n := nobs a + 1 in
  let dx := (vx - meanx a)%Q in
  let dy := (vy - meany a)%Q in
  let mx := (meanx a + (1 / inject_Z n) * dx)%Q in
  let my := (meany a + (1 / inject_Z n) * dy)%Q in
  mkCorrAcc n mx my
            (ssqdmx a + (vx - mx) * dx)%Q
            (ssqdmy a + (vy - my) * dy)%Q
            (covxy a + (vx - mx) * dy)%Q.

(** An entry of the correlation matrix: NaN, or the quotient of the
    co-deviation by the square root of [radicand].  The root is not a
    rational in general, so the quotient is kept unevaluated. *)
Inductive corr_value : Type :=
  | CorrNaN : corr_value
  | CorrQuot (covxy radicand : Q) : corr_value.

Definition nancorr_pair (minp : Z) (xs ys : Series Q) : corr_value :=
  let a := fold_left corr_step (combine xs ys) (mkCorrAcc 0 0 0 0 0 0) in
  if nobs a <? minp then CorrNaN
  else if Qeq_bool (ssqdmx a * ssqdmy a) 0 then CorrNaN
  else CorrQuot (covxy a) (ssqdmx a * ssqdmy a).

Definition corr (columns : list (Series Q)) : list (list corr_value) :=
  map (fun xs => map (fun ys => nancorr_pair 1 xs ys) columns) columns.

End Pandas.

Import Pandas.

(** ** The sums in binary64 *)

(** [.sum()] and [.groupby(...).sum()] of a float column as numpy and
    pandas compute them on binary64 values: every addition rounds, so the
    order of the additions shows in the result. *)
Module Binary64.

Local Open Scope float_scope.

Definition sum_from (start : float) (a : list float) : float :=
  fold_left PrimFloat.add a start.

(** [r[j] += a[j]] for the eight accumulators. *)
Fixpoint add8 (r a : list float) : list float :=
  match r, a with
  | x :: r', y :: a' => (x + y) :: add8 r' a'
  | _, _ => r
  end.

(** The loop over whole blocks of eight; what does not fill a block is
    handed back. *)
Fixpoint blocks (fuel : nat) (r rest : list float)
  : list float * list float :=
  match fuel with
  | O => (r, rest)
  | S fuel' =>
      if (8 <=? List.length rest)%nat
      then blocks fuel' (add8 r (firstn 8 rest)) (skipn 8 rest)
      else (r, rest)
  end.

Definition combine8 (r : list float) : float :=
  match r with
  | [r0; r1; r2; r3; r4; r5; r6; r7] =>
      ((r0 + r1) + (r2 + r3)) + ((r4 + r5) + (r6 + r7))
  | _ => 0
  end.

(** numpy's pairwise summation: a running sum below eight values, eight
    accumulators up to 128 values, halves (cut at a multiple of eight)
    above.  [fuel] bounds the halving; the length of [a] is enough. *)
Fixpoint pairwise_sum (fuel : nat) (a : list float) : float :=
  let n := List.length a in
  if (n <? 8)%nat then sum_from (- 0) a
  else if (n <=? 128)%nat then
    let (r, rest) := blocks n (firstn 8 a) (skipn 8 a) in
    sum_from (combine8 r) rest
  else
    match fuel with
    | O => 0
    | S fuel' =>
        let n2 := (n / 2 - (n / 2) mod 8)%nat in
        pairwise_sum fuel' (firstn n2 a) + pairwise_sum fuel' (skipn n2 a)
    end.

(** [a.sum()] on an array: the pairwise sum added to the initial value,
    which is 0.0 for no values and -0.0 otherwise. *)
Definition np_sum (a : list float) : float :=
  match a with
  | [] => 0
  | _ => - 0 + pairwise_sum (List.length a) a
  end.

(** [s.sum()] on a column, with the default [skipna=True]: a NaN counts as
    zero. *)
Definition nansum (s : Series float) : float :=
  np_sum (map (fun x => if PrimFloat.is_nan x then 0 else x) s).

(** One step of the compensated (Kahan) sum that [groupby(...).sum()] keeps
    for each group; a NaN is skipped and a NaN compensation is reset. *)
Definition kahan_step (st : float * float) (val : float) : float * float :=
  let (sumx, compensation) := st in
  if PrimFloat.is_nan val then st
  else
    let y := val - compensation in
    let t := sumx + y in
    let c := t - sumx - y in
    (t, if PrimFloat.is_nan c then 0 else c).

Definition group_sum (vals : list float) : float :=
  fst (fold_left kahan_step vals (0, 0)).

(** [df_filtered["TotalSales"].sum()]. *)
Definition total_sales (TotalSales : Series float) : float :=
  nansum TotalSales.

(** [df_filtered.groupby(level)["TotalSales"].sum()], on the key column and
    the [TotalSales] column of the filtered table. *)
Definition sales_by (key : Series string) (TotalSales : Series float)
  : list (string * float) :=
  let rows := combine key TotalSales in
  map (fun k => (k, group_sum (map snd (group String.eqb fst k rows))))
      (StringSort.sort (unique String.eqb [] key)).

End Binary64.

(** ** The sort behind [sort_values] *)

(** [Series.sort_values(ascending=False)] with the default
    [kind="quicksort"]: pandas reverses the values, asks numpy for the
    argsort, and reverses the answer; numpy's argsort is the introsort below
    (median-of-three quicksort on an explicit stack, insertion sort for
    ranges of at most 17 entries, heapsort once the depth limit is used
    up).  Pointers into [tosort] are indices; [fuel] bounds each loop. *)
Module Numpy.

Section Argsort.
Context {A : Type}.
Variable less : A -> A -> bool.
Variable v : nat -> A.

Definition SMALL_QUICKSORT : Z := 16.

Definition at_ (t : list nat) (p : Z) : nat := nth (Z.to_nat p) t O.

Definition put (t : list nat) (p : Z) (x : nat) : list nat :=
  if (0 <=? p) && (Z.to_nat p <? List.length t)%nat
  then firstn (Z.to_nat p) t ++ x :: skipn (S (Z.to_nat p)) t
  else t.

Definition swap (t : list nat) (p q : Z) : list nat :=
  put (put t p (at_ t q)) q (at_ t p).

Definition median3 (t : list nat) (pl pm pr : Z) : list nat :=
  let t1 := if less (v (at_ t pm)) (v (at_ t pl)) then swap t pm pl else t in
  let t2 := if less (v (at_ t1 pr)) (v (at_ t1 pm)) then swap t1 pr pm
            else t1 in
  if less (v (at_ t2 pm)) (v (at_ t2 pl)) then swap t2 pm pl else t2.

(** [do { ++pi; } while (less(v[*pi], vp));] *)
Fixpoint scan_up (fuel : nat) (t : list nat) (vp : A) (pi : Z) : Z :=
  match fuel with
  | O => pi
  | S fuel' =>
      let pi' := pi + 1 in
      if less (v (at_ t pi')) vp then scan_up fuel' t vp pi' else pi'
  end.

(** [do { --pj; } while (less(vp, v[*pj]));] *)
Fixpoint scan_down (fuel : nat) (t : list nat) (vp : A) (pj : Z) : Z :=
  match fuel with
  | O => pj
  | S fuel' =>
      let pj' := pj - 1 in
      if less vp (v (at_ t pj')) then scan_down fuel' t vp pj' else pj'
  end.

Fixpoint partition_loop (fuel : nat) (t : list nat) (vp : A) (pi pj : Z)
  : list nat * Z :=
  match fuel with
  | O => (t, pi)
  | S fuel' =>
      let pi' := scan_up (List.length t) t vp pi in
      let pj' := scan_down (List.length t) t vp pj in
      if pi' >=? pj' then (t, pi')
      else partition_loop fuel' (swap t pi' pj') vp pi' pj'
  end.

(** [while (pj > pl && less(vp, v[*pk])) { *pj-- = *pk--; }] *)
Fixpoint shift_right (fuel : nat) (t : list nat) (vp : A) (pl pj : Z)
  : list nat * Z :=
  match fuel with
  | O => (t, pj)
  | S fuel' =>
      if (pj >? pl) && less vp (v (at_ t (pj - 1)))
      then shift_right fuel' (put t pj (at_ t (pj - 1))) vp pl (pj - 1)
      else (t, pj)
  end.

Fixpoint insertion_sort (fuel : nat) (t : list nat) (pl pr pi : Z)
  : list nat :=
  match fuel with
  | O => t
  | S fuel' =>
      if pi <=? pr then
        let vi := at_ t pi in
        let (t', pj) := shift_right (List.length t) t (v vi) pl pi in
        insertion_sort fuel' (put t' pj vi) pl pr (pi + 1)
      else t
  end.

(** The sift of the heapsort; [a[i]] is [tosort[base + i - 1]]. *)
Fixpoint sift (fuel : nat) (t : list nat) (base : Z) (tmp : nat)
  (i j n : Z) : list nat * Z :=
  match fuel with
  | O => (t, i)
  | S fuel' =>
      if j <=? n then
        let j' := if (j <? n)
                     && less (v (at_ t (base + j - 1))) (v (at_ t (base + j)))
                  then j + 1 else j in
        if less (v tmp) (v (at_ t (base + j' - 1)))
        then sift fuel' (put t (base + i - 1) (at_ t (base + j' - 1)))
                  base tmp j' (j' + j') n
        else (t, i)
      else (t, i)
  end.

Fixpoint heapify (fuel : nat) (t : list nat) (base l n : Z) : list nat :=
  match fuel with
  | O => t
  | S fuel' =>
      if l >? 0 then
        let tmp := at_ t (base + l - 1) in
        let (t', i) := sift (List.length t) t base tmp l (Z.shiftl l 1) n in
        heapify fuel' (put t' (base + i - 1) tmp) base (l - 1) n
      else t
  end.

Fixpoint heap_extract (fuel : nat) (t : list nat) (base n : Z) : list nat :=
  match fuel with
  | O => t
  | S fuel' =>
      if n >? 1 then
        let tmp := at_ t (base + n - 1) in
        let t1 := put t (base + n - 1) (at_ t base) in
        let n' := n - 1 in
        let (t2, i) := sift (List.length t) t1 base tmp 1 2 n' in
        heap_extract fuel' (put t2 (base + i - 1) tmp) base n'
      else t
  end.

Definition aheapsort (t : list nat) (base n : Z) : list nat :=
  heap_extract (List.length t)
    (heapify (List.length t) t base (Z.shiftr n 1) n) base n.

(** The state between two rounds: the array, the range at hand, the stack
    of ranges put aside, the depth left and the stack of depths. *)
Record frame : Type := mkFrame {
  tosort : list nat;
  lo : Z;
  hi : Z;
  ranges : list (Z * Z);
  cdepth : Z;
  depths : list Z
}.

(** [while ((pr - pl) > SMALL_QUICKSORT) { ... }]: partition, put the
    larger part aside, go on with the smaller. *)
Fixpoint split_ranges (fuel : nat) (s : frame) : frame :=
  match fuel with
  | O => s
  | S fuel' =>
      let pl := lo s in
      let pr := hi s in
      if pr - pl >? SMALL_QUICKSORT then
        let pm := pl + Z.shiftr (pr - pl) 1 in
        let t1 := median3 (tosort s) pl pm pr in
        let vp := v (at_ t1 pm) in
        let pj := pr - 1 in
        let t2 := swap t1 pm pj in
        let (t3, pi) := partition_loop (List.length t2) t2 vp pl pj in
        let t4 := swap t3 pi (pr - 1) in
        let d := cdepth s - 1 in
        if pi - pl <? pr - pi
        then split_ranges fuel'
               (mkFrame t4 pl (pi - 1) ((pi + 1, pr) :: ranges s) d
                        (d :: depths s))
        else split_ranges fuel'
               (mkFrame t4 (pi + 1) pr ((pl, pi - 1) :: ranges s) d
                        (d :: depths s))
      else s
  end.

(** [while (1) { ... }] *)
Fixpoint rounds (fuel : nat) (s : frame) : list nat :=
  match fuel with
  | O => tosort s
  | S fuel' =>
      let s' :=
        if cdepth s <? 0
        then mkFrame (aheapsort (tosort s) (lo s) (hi s - lo s + 1))
                     (lo s) (hi s) (ranges s) (cdepth s) (depths s)
        else
          let s1 := split_ranges (List.length (tosort s)) s in
          mkFrame (insertion_sort (List.length (tosort s1)) (tosort s1)
                     (lo s1) (hi s1) (lo s1 + 1))
                  (lo s1) (hi s1) (ranges s1) (cdepth s1) (depths s1)
      in
      match ranges s', depths s' with
      | (pl, pr) :: rest, d :: ds =>
          rounds fuel' (mkFrame (tosort s') pl pr rest d ds)
      | _, _ => tosort s'
      end
  end.

(** [npy_aquicksort(v, tosort, num)] on [tosort = 0, 1, ..., num - 1]. *)
Definition aquicksort (num : nat) : list nat :=
  rounds (S num)
    (mkFrame (seq 0 num) 0 (Z.of_nat num - 1) []
             (Z.log2 (Z.of_nat num) * 2) []).

End Argsort.

(** [values.argsort(kind="quicksort")]. *)
Definition argsort {A : Type} (less : A -> A -> bool) (dflt : A)
  (values : list A) : list nat :=
  aquicksort less (fun i => nth i values dflt) (List.length values).

(** pandas' [nargsort(values, kind="quicksort", ascending=False)] on values
    none of which is missing. *)
Definition nargsort_descending {A : Type} (less : A -> A -> bool)
  (dflt : A) (values : list A) : list nat :=
  let non_nans := rev values in
  let non_nan_idx := rev (seq 0 (List.length values)) in
  let indexer :=
    map (fun i => nth i non_nan_idx O) (argsort less dflt non_nans) in
  rev indexer.

End Numpy.

(** ** A sort with the contract of [sort_values] *)

Lemma StronglySorted_snoc {A : Type} (R : A -> A -> Prop) (l : list A)
  (a : A) :
  StronglySorted R l -> Forall (fun x => R x a) l ->
  StronglySorted R (l ++ [a]).
Proof.
  induction 1 as [| x l HS IH Hall]; intros Ha; simpl.
  - repeat constructor.
  - inversion Ha; subst. constructor; [now apply IH |].
    apply Forall_app. split; [assumption | now constructor].
Qed.

Lemma StronglySorted_rev {A : Type} (R : A -> A -> Prop) (l : list A) :
  StronglySorted R l -> StronglySorted (fun a b => R b a) (rev l).
Proof.
  induction 1 as [| x l HS IH Hall]; simpl.
  - constructor.
  - apply StronglySorted_snoc; [assumption |].
    apply Forall_rev. assumption.
Qed.

Lemma StronglySorted_impl {A : Type} (R R' : A -> A -> Prop) (l : list A) :
  (forall a b, R a b -> R' a b) ->
  StronglySorted R l -> StronglySorted R' l.
Proof.
  intros HR. induction 1 as [| x l HS IH Hall]; constructor.
  - assumption.
  - eapply Forall_impl; [| exact Hall]. intros b. apply HR.
Qed.

Lemma value_leb_trans : Transitive (fun a b => is_true (ValueOrder.leb a b)).
Proof.
  intros a b c. unfold is_true, ValueOrder.leb.
  rewrite !Qle_bool_iff. apply Qle_trans.
Qed.

Lemma rev_sort_perm (s : list (string * Q)) :
  Permutation s (rev (ValueSort.sort s)).
Proof.
  etransitivity; [apply ValueSort.Permuted_sort | apply Permutation_rev].
Qed.

Lemma rev_sort_sorted (s : list (string * Q)) :
  StronglySorted (fun a b => (snd b <= snd a)%Q) (rev (ValueSort.sort s)).
Proof.
  apply (StronglySorted_rev (fun a b => (snd a <= snd b)%Q)).
  apply StronglySorted_impl
    with (R := fun a b => is_true (ValueOrder.leb a b)).
  - intros a b H. now apply Qle_bool_iff.
  - apply ValueSort.StronglySorted_sort. exact value_leb_trans.
Qed.

(** [s.sort_values(ascending=False)] on the rows of a group-wise sum: the
    rows taken in the order [nargsort] gives for their values. *)
Definition value_less (a b : Q) : bool := negb (Qle_bool b a).

Definition quicksort_order (s : list (string * Q)) : list nat :=
  Numpy.nargsort_descending value_less 0%Q (map snd s).

Definition take (s : list (string * Q)) (indexer : list nat)
  : list (string * Q) :=
  map (fun i => nth i s (EmptyString, 0%Q)) indexer.

(** Whether [indexer] names each of the positions [0 .. n-1] once. *)
Definition covers (n : nat) (indexer : list nat) : bool :=
  (List.length indexer =? n)%nat
  && forallb (fun i => existsb (Nat.eqb i) indexer) (seq 0 n).

(** Whether no row is followed by a row of larger value. *)
Fixpoint descending (r : list (string * Q)) : bool :=
  match r with
  | a :: rest =>
      match rest with
      | b :: _ => Qle_bool (snd b) (snd a) && descending rest
      | [] => true
      end
  | [] => true
  end.

(** The sort as the script runs it.  That numpy's sort puts every input in
    order is not proved here; it is checked on the result, which is what
    lets the sort stand among the functions with the contract.  The other
    branch is for a result that fails the check, which a correct sort never
    produces. *)
Definition sort_values_quicksort (s : list (string * Q))
  : list (string * Q) :=
  let r := take s (quicksort_order s) in
  if covers (List.length s) (quicksort_order s) && descending r then r
  else rev (ValueSort.sort s).

Lemma take_all (s : list (string * Q)) :
  take s (seq 0 (List.length s)) = s.
Proof.
  unfold take. induction s as [| a s IH]; [reflexivity |].
  cbn [List.length seq map nth]. f_equal.
  rewrite <- seq_shift, map_map. exact IH.
Qed.

Lemma covers_Permutation (n : nat) (indexer : list nat) :
  covers n indexer = true -> Permutation (seq 0 n) indexer.
Proof.
  unfold covers. rewrite andb_true_iff, Nat.eqb_eq, forallb_forall.
  intros [Hlen Hall].
  apply NoDup_Permutation_bis.
  - apply seq_NoDup.
  - rewrite length_seq, Hlen. apply Nat.le_refl.
  - intros i Hi. apply Hall in Hi. apply existsb_exists in Hi.
    destruct Hi as [j [Hj E]]. apply Nat.eqb_eq in E. now subst.
Qed.

Lemma descending_sorted (r : list (string * Q)) :
  descending r = true ->
  StronglySorted (fun a b => (snd b <= snd a)%Q) r.
Proof.
  intros H. apply Sorted_StronglySorted.
  - intros a b c Hab Hbc. eapply Qle_trans; eassumption.
  - induction r as [| a r IH]; [constructor |].
    destruct r as [| b r]; [repeat constructor |].
    cbn [descending] in H. apply andb_true_iff in H. destruct H as [H1 H2].
    constructor; [now apply IH |].
    constructor. now apply Qle_bool_iff.
Qed.

Lemma sort_values_quicksort_perm (s : list (string * Q)) :
  Permutation s (sort_values_quicksort s).
Proof.
  unfold sort_values_quicksort.
  destruct (covers (List.length s) (quicksort_order s) &&
            descending (take s (quicksort_order s))) eqn:E.
  - apply andb_true_iff in E. destruct E as [E _].
    rewrite <- (take_all s) at 1. unfold take.
    apply Permutation_map, covers_Permutation, E.
  - apply rev_sort_perm.
Qed.

Lemma sort_values_quicksort_sorted (s : list (string * Q)) :
  StronglySorted (fun a b => (snd b <= snd a)%Q) (sort_values_quicksort s).
Proof.
  unfold sort_values_quicksort.
  destruct (covers (List.length s) (quicksort_order s) &&
            descending (take s (quicksort_order s))) eqn:E.
  - apply andb_true_iff in E. destruct E as [_ E].
    now apply descending_sorted.
  - apply rev_sort_sorted.
Qed.

Definition numpy_quicksort : SortValues :=
  mkSortValues sort_values_quicksort
               sort_values_quicksort_perm sort_values_quicksort_sorted.

(** ** Python's format specification [,.2f] *)

Module Format.

(** Round a non-negative rational to the nearest integer, ties to even. *)
Definition round_half_even (x : Q) : Z :=
  let f := Qfloor x in
  match Qcompare (x - inject_Z f) (1 # 2) with
  | Lt => f
  | Gt => f + 1
  | Eq => if Z.even f then f else f + 1
  end.

Definition digits (z : Z) : list ascii :=
  list_ascii_of_string
    (DecimalString.NilZero.string_of_uint (N.to_uint (Z.to_N z))).

(** Insert the thousands separators, walking the digits from the units;
    [k] digits remain before the next separator. *)
Fixpoint thousands (k : nat) (rev_digits : list ascii) : list ascii :=
  match rev_digits with
  | [] => []
  | c :: rest =>
      match k with
      | O => ","%char :: c :: thousands 2 rest
      | S k' => c :: thousands k' rest
      end
  end.

Definition with_commas (z : Z) : string :=
  string_of_list_ascii (rev (thousands 3 (rev (digits z)))).

Definition two_digits (z : Z) : string :=
  if z <? 10 then String "0"%char (string_of_list_ascii (digits z))
  else string_of_list_ascii (digits z).

(** [format(x, ",.2f")]. *)
Definition comma_2f (x : float64) : string :=
  match x with
  | NaN => "nan"
  | Fin q =>
      let cents := round_half_even (Qabs.Qabs q * 100) in
      ((if Qlt_le_dec q 0 then "-" else "")
         ++ with_commas (cents / 100) ++ "." ++ two_digits (cents mod 100))%string
  end.

End Format.

Definition dimension_col (level : Dimension) : Row -> string :=
  match level with
  | ByRegion => Region
  | ByCountry => Country
  | ByProductCategory => ProductCategory
  | ByProduct => Product
  end.

(** ** src/3.py *)

Module Script3.

(** Lines 26-31. *)
Definition df_filtered (df : DataFrame) (w : FilterSpec)
  : result DataFrame :=
  getitem_mask df
    (mask_and
       (mask_and
          (mask_and (isin (col Region df) (regions w))
                    (isin (col Country df) (countries w)))
          (isin (col ProductCategory df) (categories w)))
       (between (col Date df) (start_date w) (end_date w))).

(** Lines 35-37. *)
Definition total_sales (df_filtered : DataFrame) : Q :=
  sum (col TotalSales df_filtered).

Definition total_units (df_filtered : DataFrame) : Z :=
  sum_int (col UnitsSold df_filtered).

Definition avg_price (df_filtered : DataFrame) : float64 :=
  mean (col UnitPrice df_filtered).

(** Line 42: the text of the "Avg Price" metric. *)
Definition kpi3_metric (avg_price : float64) : string :=
  ("$" ++ Format.comma_2f avg_price)%string.

(** Line 51, and line 85 with [agg_dim] for [level]. *)
Definition sales_by (level : Dimension) (df_filtered : DataFrame)
  : list (string * Q) :=
  groupby_sum String.eqb StringSort.sort
    (dimension_col level) TotalSales df_filtered.

(** Lines 65-69: the copy of the frame with its [Period] column. *)
Definition df_time (time_agg : TimeAgg) (df_filtered : DataFrame)
  : list (Row * Timestamp) :=
  match time_agg with
  | Month =>
      combine df_filtered
        (map to_period_M_to_timestamp (col Date df_filtered))
  | Day => combine df_filtered (col Date df_filtered)
  end.

(** Line 72. *)
Definition sales_over_time (time_agg : TimeAgg) (df_filtered : DataFrame)
  : list (Timestamp * Q) :=
  groupby_sum ts_eqb TimestampSort.sort
    snd (fun rp => TotalSales (fst rp)) (df_time time_agg df_filtered).

End Script3.

(** ** src/31.py *)

Module Script31.

(** Lines 28-33. *)
Definition df_filtered (df : DataFrame) (w : FilterSpec)
  : result DataFrame :=
  getitem_mask df
    (mask_and
       (mask_and
          (mask_and (isin (col Region df) (regions w))
                    (isin (col Country df) (countries w)))
          (isin (col ProductCategory df) (categories w)))
       (between (col Date df) (start_date w) (end_date w))).

(** Lines 36-38. *)
Definition total_sales (df_filtered : DataFrame) : Q :=
  sum (col TotalSales df_filtered).

Definition total_units (df_filtered : DataFrame) : Z :=
  sum_int (col UnitsSold df_filtered).

Definition avg_price (df_filtered : DataFrame) : float64 :=
  mean (col UnitPrice df_filtered).

(** Line 43: the text of the "Avg Price" metric. *)
Definition kpi3_metric (avg_price : float64) : string :=
  ("$" ++ Format.comma_2f avg_price)%string.

(** Line 56, and line 92 with [agg_dim] for [level]. *)
Definition sales_by (level : Dimension) (df_filtered : DataFrame)
  : list (string * Q) :=
  groupby_sum String.eqb StringSort.sort
    (dimension_col level) TotalSales df_filtered.

(** Lines 71-75. *)
Definition df_time (time_agg : TimeAgg) (df_filtered : DataFrame)
  : list (Row * Timestamp) :=
  match time_agg with
  | Month =>
      combine df_filtered
        (map to_period_M_to_timestamp (col Date df_filtered))
  | Day => combine df_filtered (col Date df_filtered)
  end.

(** Line 78. *)
Definition sales_over_time (time_agg : TimeAgg) (df_filtered : DataFrame)
  : list (Timestamp * Q) :=
  groupby_sum ts_eqb TimestampSort.sort
    snd (fun rp => TotalSales (fst rp)) (df_time time_agg df_filtered).

(** Lines 105-106. *)
Definition top_products (impl : SortValues) (df_filtered : DataFrame)
  (top_n : nat) : list (string * Q) :=
  head top_n
    (sort_values_desc impl
       (groupby_sum String.eqb StringSort.sort Product TotalSales
          df_filtered)).

(** Line 111.  No statement of the script guards the call, so the
    statement completes with whatever matrix pandas returns. *)
Definition corr (df_filtered : DataFrame)
  : result (list (list corr_value)) :=
  Ok (Pandas.corr [map inject_Z (col UnitsSold df_filtered);
                   col UnitPrice df_filtered;
                   col TotalSales df_filtered]).

(** Filter, then rank: lines 28-33 followed by lines 105-106. *)
Definition ranked (impl : SortValues) (df : DataFrame) (w : FilterSpec)
  (top_n : nat) : result (list (string * Q)) :=
  bind (df_filtered df w) (fun f => Ok (top_products impl f top_n)).

End Script31.

(** ** The widgets and the two other metrics *)

(** The statements both scripts share ahead of the filter and right after
    the KPIs: the initial values of the sidebar widgets ([src/3.py] lines
    17-24, [src/31.py] lines 19-26) and the texts of the "Total Sales" and
    "Units Sold" metrics ([src/3.py] lines 40-41, [src/31.py] lines 41-42);
    and the bounds of the "Top N" slider ([src/31.py] line 104). *)
Module Widgets.

(** [s.unique()]: the distinct values in order of first appearance. *)
Definition Series_unique (s : Series string) : list string :=
  unique String.eqb [] s.

(** [s.min()] and [s.max()] on the date column.  An empty column has no
    smallest date (pandas answers NaT): that is [None]. *)
Definition date_min (s : Series Timestamp) : option Timestamp :=
  match s with
  | [] => None
  | x :: rest =>
      Some (fold_left (fun m y => if ts_leb y m then y else m) rest x)
  end.

Definition date_max (s : Series Timestamp) : option Timestamp :=
  match s with
  | [] => None
  | x :: rest =>
      Some (fold_left (fun m y => if ts_leb m y then y else m) rest x)
  end.

(** What the three multiselects and the date input hold before the user
    touches them: every value of the column, and the span of the dates. *)
Definition initial_selection (df : DataFrame) : option FilterSpec :=
  match date_min (col Date df), date_max (col Date df) with
  | Some lo, Some hi =>
      Some (mkFilterSpec (Series_unique (col Region df))
                         (Series_unique (col Country df))
                         (Series_unique (col ProductCategory df))
                         lo hi)
  | _, _ => None
  end.

(** [st.slider("Show Top N Products by Sales", 1, 10, 5)]: the values the
    slider can hand to [head]. *)
Definition slider_value (top_n : nat) : Prop := (1 <= top_n <= 10)%nat.

(** [format(x, ",.0f")]: nearest integer, ties to even, with thousands
    separators and no decimal point. *)
Definition comma_0f (x : float64) : string :=
  match x with
  | NaN => "nan"
  | Fin q =>
      ((if Qlt_le_dec q 0 then "-" else "")
         ++ Format.with_commas (Format.round_half_even (Qabs.Qabs q)))%string
  end.

(** [format(n, ",")] on an integer. *)
Definition comma_d (n : Z) : string :=
  ((if (n <? 0)%Z then "-" else "") ++ Format.with_commas (Z.abs n))%string.

(** The text of the "Total Sales" metric. *)
Definition kpi1_metric (total_sales : Q) : string :=
  ("$" ++ comma_0f (Fin total_sales))%string.

(** The text of the "Units Sold" metric. *)
Definition kpi2_metric (total_units : Z) : string := comma_d total_units.

(** Drop the thousands separators from a text. *)
Fixpoint strip_commas (text : string) : string :=
  match text with
  | EmptyString => EmptyString
  | String c rest =>
      if Ascii.eqb c ","%char then strip_commas rest
      else String c (strip_commas rest)
  end.

End Widgets.

(** ** The vocabulary of the specification *)

(** The four-part predicate of the Filter Engine, in the specification's
    words. *)
Definition selected (w : FilterSpec) (r : Row) : Prop :=
  In (Region r) (regions w) /\
  In (Country r) (countries w) /\
  In (ProductCategory r) (categories w) /\
  ts_le (start_date w) (Date r) /\ ts_le (Date r) (end_date w).

(** [kept P df out]: [out] is [df] with exactly the rows satisfying [P]
    left in, each once, in the order of [df]. *)
Inductive kept (P : Row -> Prop) : DataFrame -> DataFrame -> Prop :=
  | kept_nil : kept P [] []
  | kept_keep r df out : P r -> kept P df out -> kept P (r :: df) (r :: out)
  | kept_drop r df out : ~ P r -> kept P df out -> kept P (r :: df) out.

(** The row-wise value of the mask the scripts build. *)
Definition row_mask (w : FilterSpec) (r : Row) : bool :=
  existsb (String.eqb (Region r)) (regions w)
  && existsb (String.eqb (Country r)) (countries w)
  && existsb (String.eqb (ProductCategory r)) (categories w)
  && (ts_leb (start_date w) (Date r) && ts_leb (Date r) (end_date w)).

(** Period bucketing in the specification's words: the date itself for
    "Day", the first day of its month for "Month". *)
Definition period_start (time_agg : TimeAgg) (d : Timestamp) : Timestamp :=
  match time_agg with
  | Day => d
  | Month => mkTimestamp (year d) (month d) 1
  end.

(** The order the specification asks of the top-N view: larger sums first,
    and among equal sums the lexically smaller key first. *)
Definition ranked_before (a b : string * Q) : Prop :=
  (snd b < snd a)%Q \/ ((snd a == snd b)%Q /\ str_lt (fst a) (fst b)).

(** What the sort itself promises: no entry is followed by a larger one. *)
Definition not_below (a b : string * Q) : Prop := (snd b <= snd a)%Q.

(** The sum of integers without any bound on its size. *)
Definition Zsum (l : list Z) : Z := fold_right Z.add 0 l.

(** The three records of the specification's concrete scenario. *)
Definition scenario : DataFrame :=
  [mkRow (mkTimestamp 2024 1 10) "US"%string "USA"%string "Toys"%string
         "Car"%string 2 10 20;
   mkRow (mkTimestamp 2024 2 15) "US"%string "USA"%string "Toys"%string
         "Car"%string 1 10 10;
   mkRow (mkTimestamp 2024 2 20) "EU"%string "DE"%string "Books"%string
         "Atlas"%string 3 5 15].

Definition scenario_selection : FilterSpec :=
  mkFilterSpec ["US"%string] ["USA"%string; "DE"%string]
               ["Toys"%string; "Books"%string]
               (mkTimestamp 2024 1 1) (mkTimestamp 2024 12 31).

(** Eighteen products with the same total, one row each. *)
Definition tied_products : DataFrame :=
  map (fun product =>
         mkRow (mkTimestamp 2024 1 10) "US"%string "USA"%string
               "Toys"%string product 1 10 10)
      ["P01"; "P02"; "P03"; "P04"; "P05"; "P06"; "P07"; "P08"; "P09";
       "P10"; "P11"; "P12"; "P13"; "P14"; "P15"; "P16"; "P17";
       "P18"]%string.

(** The 3x3 matrix with no defined entry. *)
Definition all_nan : list (list corr_value) :=
  [[CorrNaN; CorrNaN; CorrNaN];
   [CorrNaN; CorrNaN; CorrNaN];
   [CorrNaN; CorrNaN; CorrNaN]].

(** A text that shows nothing, or what the metric shows for zero. *)
Definition blank_or_zero (text : string) : Prop :=
  Forall (fun c => c = " "%char) (list_ascii_of_string text) \/
  text = Script31.kpi3_metric (Fin 0).

(** ** Facts about the filter *)

Lemma existsb_eqb_In (x : string) (l : list string) :
  existsb (String.eqb x) l = true <-> In x l.
Proof.
  rewrite existsb_exists. split.
  - intros [y [Hy E]]. apply String.eqb_eq in E. now subst.
  - intros H. exists x. split; [assumption | apply String.eqb_refl].
Qed.

Lemma ts_leb_le (a b : Timestamp) : ts_leb a b = true <-> ts_le a b.
Proof.
  unfold ts_leb, ts_le. destruct (ts_compare a b); split; congruence.
Qed.

Lemma row_mask_selected (w : FilterSpec) (r : Row) :
  row_mask w r = true <-> selected w r.
Proof.
  unfold row_mask, selected.
  rewrite !andb_true_iff, !existsb_eqb_In, !ts_leb_le. tauto.
Qed.

Lemma getitem_mask_map (f : Row -> bool) (df : DataFrame) :
  getitem_mask df (map f df) = Ok (filter f df).
Proof.
  induction df as [| r df IH]; simpl.
  - reflexivity.
  - rewrite IH. simpl. now destruct (f r).
Qed.

Lemma mask_and_map (f g : Row -> bool) (df : DataFrame) :
  mask_and (map f df) (map g df) = map (fun r => f r && g r) df.
Proof.
  induction df as [| r df IH]; simpl; [reflexivity | now rewrite IH].
Qed.

Lemma filter_mask (df : DataFrame) (w : FilterSpec) :
  mask_and
    (mask_and
       (mask_and (isin (col Region df) (regions w))
                 (isin (col Country df) (countries w)))
       (isin (col ProductCategory df) (categories w)))
    (between (col Date df) (start_date w) (end_date w))
  = map (row_mask w) df.
Proof.
  unfold isin, between, col. rewrite !map_map.
  rewrite !mask_and_map. reflexivity.
Qed.

Lemma df_filtered3_filter (df : DataFrame) (w : FilterSpec) :
  Script3.df_filtered df w = Ok (filter (row_mask w) df).
Proof.
  unfold Script3.df_filtered. rewrite filter_mask. apply getitem_mask_map.
Qed.

Lemma df_filtered31_filter (df : DataFrame) (w : FilterSpec) :
  Script31.df_filtered df w = Ok (filter (row_mask w) df).
Proof.
  unfold Script31.df_filtered. rewrite filter_mask. apply getitem_mask_map.
Qed.

Lemma kept_filter (w : FilterSpec) (df : DataFrame) :
  kept (selected w) df (filter (row_mask w) df).
Proof.
  induction df as [| r df IH]; simpl.
  - constructor.
  - destruct (row_mask w r) eqn:E.
    + apply kept_keep; [now apply row_mask_selected | exact IH].
    + apply kept_drop; [| exact IH].
      intros H. apply row_mask_selected in H. congruence.
Qed.

Lemma filter_filter_same {A : Type} (f : A -> bool) (l : list A) :
  filter f (filter f l) = filter f l.
Proof.
  induction l as [| x l IH]; simpl; [reflexivity |].
  destruct (f x) eqn:E; simpl; [rewrite E, IH |]; auto.
Qed.

Lemma row_mask_rejects_all (w : FilterSpec) :
  regions w = [] \/ countries w = [] \/ categories w = [] \/
  ts_lt (end_date w) (start_date w) ->
  forall r, row_mask w r = false.
Proof.
  intros H r. destruct (row_mask w r) eqn:E; [| reflexivity].
  apply row_mask_selected in E.
  destruct E as (Hr & Hc & Hp & Hlo & Hhi).
  destruct H as [H | [H | [H | H]]].
  - rewrite H in Hr. destruct Hr.
  - rewrite H in Hc. destruct Hc.
  - rewrite H in Hp. destruct Hp.
  - exfalso. revert H Hlo Hhi. unfold ts_lt, ts_le, ts_compare.
    destruct (Z.compare_spec (year (end_date w)) (year (start_date w)));
    destruct (Z.compare_spec (year (start_date w)) (year (Date r)));
    destruct (Z.compare_spec (year (Date r)) (year (end_date w)));
    try congruence; try lia;
    destruct (Z.compare_spec (month (end_date w)) (month (start_date w)));
    destruct (Z.compare_spec (month (start_date w)) (month (Date r)));
    destruct (Z.compare_spec (month (Date r)) (month (end_date w)));
    try congruence; try lia;
    destruct (Z.compare_spec (day (end_date w)) (day (start_date w)));
    destruct (Z.compare_spec (day (start_date w)) (day (Date r)));
    destruct (Z.compare_spec (day (Date r)) (day (end_date w)));
    try congruence; lia.
Qed.

Lemma filter_none {A : Type} (f : A -> bool) (l : list A) :
  (forall x, f x = false) -> filter f l = [].
Proof.
  intros H. induction l as [| x l IH]; simpl; [reflexivity |].
  now rewrite H.
Qed.

(** ** Facts about the key orders *)

Lemma ts_compare_lex (a b : Timestamp) :
  (ts_compare a b = Lt <->
     year a < year b \/
     (year a = year b /\
      (month a < month b \/ (month a = month b /\ day a < day b)))) /\
  (ts_compare a b = Eq <->
     year a = year b /\ month a = month b /\ day a = day b).
Proof.
  unfold ts_compare.
  destruct (Z.compare_spec (year a) (year b));
  destruct (Z.compare_spec (month a) (month b));
  destruct (Z.compare_spec (day a) (day b));
  split; split; intros; try discriminate; try reflexivity; lia.
Qed.

Lemma ts_compare_eq (a b : Timestamp) : ts_compare a b = Eq <-> a = b.
Proof.
  split.
  - intros H. apply ts_compare_lex in H. destruct a, b; simpl in *.
    destruct H as (-> & -> & ->). reflexivity.
  - intros ->. apply ts_compare_lex. auto.
Qed.

Lemma ts_eqb_eq (a b : Timestamp) : ts_eqb a b = true <-> a = b.
Proof.
  rewrite <- ts_compare_eq. unfold ts_eqb.
  destruct (ts_compare a b); split; congruence.
Qed.

Lemma ts_leb_lt_or_eq (a b : Timestamp) :
  ts_leb a b = true <-> ts_lt a b \/ a = b.
Proof.
  rewrite <- ts_compare_eq. unfold ts_leb, ts_lt.
  destruct (ts_compare a b); split; intros; auto; try discriminate.
  destruct H; discriminate.
Qed.

Lemma ts_lt_trans (a b c : Timestamp) : ts_lt a b -> ts_lt b c -> ts_lt a c.
Proof.
  unfold ts_lt. intros H1 H2.
  apply ts_compare_lex in H1. apply ts_compare_lex in H2.
  apply ts_compare_lex. lia.
Qed.

Lemma ts_lt_irrefl (a : Timestamp) : ~ ts_lt a a.
Proof.
  unfold ts_lt. intros H. apply ts_compare_lex in H. lia.
Qed.

Lemma ts_leb_trans : Transitive (fun a b => is_true (ts_leb a b)).
Proof.
  intros a b c H1 H2. unfold is_true in *.
  apply ts_leb_lt_or_eq in H1. apply ts_leb_lt_or_eq in H2.
  apply ts_leb_lt_or_eq.
  destruct H1 as [H1 | ->]; [| assumption].
  destruct H2 as [H2 | ->]; [| now left].
  left. eapply ts_lt_trans; eassumption.
Qed.

Lemma str_leb_lt_or_eq (a b : string) :
  str_leb a b = true <-> str_lt a b \/ a = b.
Proof.
  unfold str_leb, str_lt.
  destruct (String_as_OT.compare_spec a b) as [E | L | G];
    split; intros; auto; try discriminate.
  - destruct H as [H | H]; [discriminate |].
    subst. exfalso. exact (StrictOrder_Irreflexive _ G).
Qed.

Lemma str_lt_trans (a b c : string) : str_lt a b -> str_lt b c -> str_lt a c.
Proof.
  exact (@StrictOrder_Transitive _ _ String_as_OT.lt_strorder a b c).
Qed.

Lemma str_lt_irrefl (a : string) : ~ str_lt a a.
Proof.
  exact (@StrictOrder_Irreflexive _ _ String_as_OT.lt_strorder a).
Qed.

Lemma str_leb_trans : Transitive (fun a b => is_true (str_leb a b)).
Proof.
  intros a b c H1 H2. unfold is_true in *.
  apply str_leb_lt_or_eq in H1. apply str_leb_lt_or_eq in H2.
  apply str_leb_lt_or_eq.
  destruct H1 as [H1 | ->]; [| assumption].
  destruct H2 as [H2 | ->]; [| now left].
  left. eapply str_lt_trans; eassumption.
Qed.

(** A list sorted by a reflexive order and free of repetitions is sorted by
    the strict part of the order. *)
Lemma StronglySorted_strict {K : Type} (le lt : K -> K -> Prop) (l : list K) :
  (forall a b, le a b -> lt a b \/ a = b) ->
  StronglySorted le l -> NoDup l -> StronglySorted lt l.
Proof.
  intros Hle HS. induction HS as [| a l HS IH Hall]; intros ND.
  - constructor.
  - inversion ND as [| ? ? Hnotin ND']; subst.
    constructor; [now apply IH |].
    rewrite Forall_forall in *. intros x Hx.
    destruct (Hle a x (Hall x Hx)) as [H | H]; [assumption |].
    subst. contradiction.
Qed.

(** ** Facts about [groupby(...).sum()] *)

Section GroupByFacts.
Context {R K : Type}.
Variable eqb : K -> K -> bool.
Variable sort : list K -> list K.
Hypothesis eqb_eq : forall a b, eqb a b = true <-> a = b.
Hypothesis sort_perm : forall l, Permutation l (sort l).

Lemma existsb_eqb_iff (k : K) (l : list K) :
  existsb (eqb k) l = true <-> In k l.
Proof.
  rewrite existsb_exists. split.
  - intros [y [Hy E]]. apply eqb_eq in E. now subst.
  - intros H. exists k. split; [assumption | now apply eqb_eq].
Qed.

Lemma unique_In (keys seen : list K) (k : K) :
  In k (unique eqb seen keys) <-> In k keys /\ ~ In k seen.
Proof.
  revert seen. induction keys as [| x keys IH]; intros seen; simpl.
  - tauto.
  - destruct (existsb (eqb x) seen) eqn:E.
    + apply existsb_eqb_iff in E. rewrite IH. split.
      * tauto.
      * intros [[-> | H] Hn]; [contradiction | tauto].
    + assert (Hx : ~ In x seen).
      { intros H. apply existsb_eqb_iff in H. congruence. }
      simpl. rewrite IH. simpl. split.
      * intros [-> | [H Hn]]; [tauto |]. split; [tauto |].
        intros H'. apply Hn. now right.
      * intros [[-> | H] Hn]; [now left |].
        destruct (eqb x k) eqn:Exk.
        -- apply eqb_eq in Exk. now left.
        -- right. split; [assumption |].
           intros [-> | H']; [| contradiction].
           assert (eqb k k = true) by now apply eqb_eq. congruence.
Qed.

Lemma unique_NoDup (keys seen : list K) : NoDup (unique eqb seen keys).
Proof.
  revert seen. induction keys as [| x keys IH]; intros seen; simpl.
  - constructor.
  - destruct (existsb (eqb x) seen); [apply IH |].
    constructor; [| apply IH].
    rewrite unique_In. simpl. tauto.
Qed.

Lemma group_keys_NoDup (keys : list K) : NoDup (sort (unique eqb [] keys)).
Proof.
  eapply Permutation_NoDup; [apply sort_perm | apply unique_NoDup].
Qed.

Lemma group_keys_In (keys : list K) (k : K) :
  In k (sort (unique eqb [] keys)) <-> In k keys.
Proof.
  split.
  - intros H.
    apply (Permutation_in _ (Permutation_sym (sort_perm _))) in H.
    apply unique_In in H. tauto.
  - intros H. eapply Permutation_in; [apply sort_perm |].
    apply unique_In. simpl. tauto.
Qed.

Lemma groupby_sum_keys (key : R -> K) (value : R -> Q) (df : list R) :
  map fst (groupby_sum eqb sort key value df)
  = sort (unique eqb [] (map key df)).
Proof.
  unfold groupby_sum. rewrite map_map. simpl. apply map_id.
Qed.

Lemma groupby_sum_In (key : R -> K) (value : R -> Q) (df : list R)
  (k : K) (v : Q) :
  In (k, v) (groupby_sum eqb sort key value df) <->
  (exists r, In r df /\ key r = k) /\
  v = sum (map value (filter (fun r => eqb (key r) k) df)).
Proof.
  unfold groupby_sum, group. rewrite in_map_iff. split.
  - intros [k' [E H]]. inversion E; subst. split; [| reflexivity].
    apply (proj1 (group_keys_In _ _)) in H.
    apply (proj1 (in_map_iff _ _ _)) in H.
    destruct H as [r [Hr Hin]]. eauto.
  - intros [[r [Hin Hr]] ->]. exists k. split; [reflexivity |].
    apply group_keys_In. apply in_map_iff. eauto.
Qed.

Lemma groupby_sum_length (key : R -> K) (value : R -> Q) (df : list R) :
  List.length (groupby_sum eqb sort key value df)
  = List.length (unique eqb [] (map key df)).
Proof.
  unfold groupby_sum. rewrite length_map.
  symmetry. apply Permutation_length, sort_perm.
Qed.

End GroupByFacts.

(** ** Facts about the two group-wise sums of the scripts *)

Lemma combine_map_r {A B : Type} (g : A -> B) (l : list A) :
  combine l (map g l) = map (fun x => (x, g x)) l.
Proof.
  induction l as [| x l IH]; simpl; [reflexivity | now rewrite IH].
Qed.

Lemma filter_map_comm {A B : Type} (h : A -> B) (g : B -> bool)
  (l : list A) :
  filter g (map h l) = map h (filter (fun x => g (h x)) l).
Proof.
  induction l as [| x l IH]; simpl; [reflexivity |].
  destruct (g (h x)); simpl; now rewrite IH.
Qed.

Lemma df_time_periods (time_agg : TimeAgg) (f : DataFrame) :
  Script3.df_time time_agg f
  = map (fun r => (r, period_start time_agg (Date r))) f.
Proof.
  unfold Script3.df_time, col.
  destruct time_agg; simpl.
  - rewrite combine_map_r. reflexivity.
  - rewrite map_map, combine_map_r. reflexivity.
Qed.

Lemma string_keys_ascending (keys : list string) :
  StronglySorted str_lt (StringSort.sort (unique String.eqb [] keys)).
Proof.
  apply StronglySorted_strict with (le := fun a b => is_true (str_leb a b)).
  - intros a b H. now apply str_leb_lt_or_eq.
  - apply StringSort.StronglySorted_sort. exact str_leb_trans.
  - apply group_keys_NoDup.
    + exact String.eqb_eq.
    + exact StringSort.Permuted_sort.
Qed.


(** ** Facts about the ranking and the correlation *)

Lemma firstn_In {A : Type} (n : nat) (l : list A) (x : A) :
  In x (firstn n l) -> In x l.
Proof.
  revert l. induction n as [| n IH]; intros [| y l]; simpl; try tauto.
  intros [H | H]; [now left | right; now apply IH].
Qed.

Lemma StronglySorted_firstn {A : Type} (R : A -> A -> Prop) (n : nat)
  (l : list A) :
  StronglySorted R l -> StronglySorted R (firstn n l).
Proof.
  intros HS. revert n.
  induction HS as [| x l HS IH Hall]; intros [| n]; simpl;
    try constructor.
  - apply IH.
  - rewrite Forall_forall in *. intros y Hy. apply Hall.
    eapply firstn_In; eassumption.
Qed.

Lemma unique_length_nodup (keys : list string) :
  List.length (unique String.eqb [] keys)
  = List.length (nodup string_dec keys).
Proof.
  apply Permutation_length, NoDup_Permutation.
  - apply unique_NoDup. exact String.eqb_eq.
  - apply NoDup_nodup.
  - intros k. rewrite nodup_In.
    rewrite (unique_In String.eqb String.eqb_eq). simpl. tauto.
Qed.

Lemma top_products_nil (impl : SortValues) (top_n : nat) :
  Script31.top_products impl [] top_n = [].
Proof.
  unfold Script31.top_products, head.
  change (groupby_sum String.eqb StringSort.sort Product TotalSales [])
    with (@nil (string * Q)).
  rewrite (Permutation_nil (sort_values_perm impl [])).
  apply firstn_nil.
Qed.

Lemma nancorr_pair_single (x y : Q) : nancorr_pair 1 [x] [y] = CorrNaN.
Proof.
  unfold nancorr_pair. simpl.
  replace (Qeq_bool _ 0) with true; [reflexivity |].
  symmetry. apply Qeq_eq_bool. field.
Qed.

(** ** The groups of a group-by share out the rows *)

Section GroupPartition.
Context {R K : Type}.
Variable eqb : K -> K -> bool.
Hypothesis eqb_eq : forall a b, eqb a b = true <-> a = b.



End GroupPartition.

(** ** The specification's scenarios, run *)

Example scenario_filtered :
  Script3.df_filtered scenario scenario_selection = Ok (firstn 2 scenario).
Proof. reflexivity. Qed.

Example scenario_by_month :
  Script3.sales_over_time Month (firstn 2 scenario)
  = [(mkTimestamp 2024 1 1, 20%Q); (mkTimestamp 2024 2 1, 10%Q)].
Proof. reflexivity. Qed.

Example scenario_by_category :
  Script3.sales_by ByProductCategory scenario
  = [("Books"%string, 15%Q); ("Toys"%string, 30%Q)].
Proof. reflexivity. Qed.

Example scenario_top_product :
  Script31.top_products numpy_quicksort scenario 1
  = [("Car"%string, 30%Q)].
Proof. reflexivity. Qed.

Example scenario_kpis :
  Script3.total_sales scenario = 45%Q /\
  Script3.total_units scenario = 6 /\
  Script3.kpi3_metric (Script3.avg_price scenario) = "$8.33"%string.
Proof. repeat split. Qed.

Example march_and_april :
  map (period_start Month)
      [mkTimestamp 2024 3 5; mkTimestamp 2024 3 28; mkTimestamp 2024 4 1]
  = [mkTimestamp 2024 3 1; mkTimestamp 2024 3 1; mkTimestamp 2024 4 1].
Proof. reflexivity. Qed.

Example thousands_and_cents :
  Script31.kpi3_metric (Fin (1234567891 # 1000)) = "$1,234,567.89"%string /\
  Script31.kpi3_metric (Fin (1 # 8)) = "$0.12"%string /\
  Script31.kpi3_metric (Fin 0) = "$0.00"%string.
Proof. repeat split. Qed.

(** ** The claims *)

(** C1.  For every table and every filter selection, both scripts' filter
    returns (without raising) exactly the rows that satisfy the four-part
    conjunctive predicate -- region, country and category among the selected
    values, date between the two bounds, both inclusive -- each kept row
    once and in the order of the input. *)
Theorem filter_keeps_exactly_selected (df : DataFrame) (w : FilterSpec) :
  exists out,
    Script3.df_filtered df w = Ok out /\
    Script31.df_filtered df w = Ok out /\
    kept (selected w) df out /\
    (forall r, In r out <-> In r df /\ selected w r).
Proof.
  exists (filter (row_mask w) df).
  split; [apply df_filtered3_filter |].
  split; [apply df_filtered31_filter |].
  split; [apply kept_filter |].
  intros r. rewrite filter_In, row_mask_selected. reflexivity.
Qed.




(** C4, as stated, fails: on eighteen products of equal total the sort of
    the script is past the range that numpy sorts by insertion, its
    partition step moves equal entries across each other, and the five
    rows the view shows are P01, P02, P17, P16, P15 -- the lexically larger
    key P17 ahead of P16. *)
Lemma top_n_ties_not_by_key :
  (0 < 5)%nat /\
  quicksort_order
    (groupby_sum String.eqb StringSort.sort Product TotalSales tied_products)
    = [0; 1; 16; 15; 14; 13; 12; 11; 10; 9; 8; 7; 6; 5; 4; 3; 2; 17]%nat /\
  Script31.top_products numpy_quicksort tied_products 5
    = [("P01"%string, 10%Q); ("P02"%string, 10%Q); ("P17"%string, 10%Q);
       ("P16"%string, 10%Q); ("P15"%string, 10%Q)] /\
  ~ StronglySorted ranked_before
      (Script31.top_products numpy_quicksort tied_products 5).
Proof.
  split; [lia |].
  split; [vm_compute; reflexivity |].
  assert (E : Script31.top_products numpy_quicksort tied_products 5
              = [("P01"%string, 10%Q); ("P02"%string, 10%Q);
                 ("P17"%string, 10%Q); ("P16"%string, 10%Q);
                 ("P15"%string, 10%Q)])
    by (vm_compute; reflexivity).
  split; [exact E |].
  rewrite E. intros H.
  inversion H as [| a1 l1 H1 _]; subst.
  inversion H1 as [| a2 l2 H2 _]; subst.
  inversion H2 as [| a3 l3 _ Hall]; subst.
  inversion Hall as [| b l' Hab _]; subst.
  destruct Hab as [Hlt | [_ Hkey]].
  - simpl in Hlt. revert Hlt. apply Qlt_irrefl.
  - vm_compute in Hkey. discriminate.
Qed.

(** C4, amended.  For every filtered table, every sort that meets the
    contract of [sort_values(ascending=False)] and every [top_n], the top-N
    view has [min top_n d] rows, where [d] is the number of distinct
    products; no row is followed by one with a larger total; every row is a
    row of the per-product sums; and a [top_n] of [d] or more gives a
    rearrangement of all of them.  Nothing is said about the order of rows
    with equal totals. *)
Theorem top_n_descending (impl : SortValues) (f : DataFrame) (top_n : nat) :
  let by_product :=
    groupby_sum String.eqb StringSort.sort Product TotalSales f in
  let distinct := List.length (nodup string_dec (map Product f)) in
  let out := Script31.top_products impl f top_n in
  List.length out = Nat.min top_n distinct /\
  StronglySorted not_below out /\
  (forall kv, In kv out -> In kv by_product) /\
  (forall more,
     Permutation by_product
       (Script31.top_products impl f (distinct + more))).
Proof.
  cbv zeta. unfold Script31.top_products, head.
  set (g := groupby_sum String.eqb StringSort.sort Product TotalSales f).
  assert (Hlen : List.length (sort_values_desc impl g)
                 = List.length (nodup string_dec (map Product f))).
  { rewrite <- (Permutation_length (sort_values_perm impl g)).
    unfold g. rewrite groupby_sum_length, unique_length_nodup.
    - reflexivity.
    - exact StringSort.Permuted_sort. }
  split; [| split; [| split]].
  - rewrite length_firstn, Hlen. reflexivity.
  - apply StronglySorted_firstn. apply (sort_values_sorted impl).
  - intros kv H. apply firstn_In in H.
    eapply Permutation_in; [| exact H].
    apply Permutation_sym, sort_values_perm.
  - intros more. rewrite firstn_all2 by (rewrite Hlen; lia).
    apply sort_values_perm.
Qed.

(** C5.  For every table, a filter selection with an empty set of regions,
    countries or categories, or with its end date before its start date,
    makes the filter return the empty table without raising, and from there
    every group-wise sum and the top-N ranking come out empty, again without
    raising. *)
Theorem empty_selection_empty_pipeline (df : DataFrame) (w : FilterSpec) :
  regions w = [] \/ countries w = [] \/ categories w = [] \/
  ts_lt (end_date w) (start_date w) ->
  Script3.df_filtered df w = Ok [] /\
  Script31.df_filtered df w = Ok [] /\
  (forall level,
     bind (Script3.df_filtered df w)
          (fun f => Ok (Script3.sales_by level f)) = Ok []) /\
  (forall time_agg,
     bind (Script3.df_filtered df w)
          (fun f => Ok (Script3.sales_over_time time_agg f)) = Ok []) /\
  (forall impl top_n, Script31.ranked impl df w top_n = Ok []).
Proof.
  intros H.
  assert (E : filter (row_mask w) df = []).
  { apply filter_none. now apply row_mask_rejects_all. }
  unfold Script31.ranked.
  rewrite df_filtered3_filter, df_filtered31_filter, E. simpl.
  repeat split.
  - intros []; reflexivity.
  - intros impl top_n. now rewrite top_products_nil.
Qed.

Lemma empty_selection_empty_pipeline_witness :
  let df := [mkRow (mkTimestamp 2024 1 10) "US"%string "USA"%string
                   "Toys"%string "Car"%string 2 10 20] in
  let w := mkFilterSpec [] ["USA"%string] ["Toys"%string]
             (mkTimestamp 2024 1 1) (mkTimestamp 2024 12 31) in
  Script3.df_filtered df w = Ok [] /\
  Script31.df_filtered df w = Ok [] /\
  (forall level,
     bind (Script3.df_filtered df w)
          (fun f => Ok (Script3.sales_by level f)) = Ok []) /\
  (forall time_agg,
     bind (Script3.df_filtered df w)
          (fun f => Ok (Script3.sales_over_time time_agg f)) = Ok []) /\
  (forall impl top_n, Script31.ranked impl df w top_n = Ok []).
Proof.
  intros df w. apply (empty_selection_empty_pipeline df w).
  left. reflexivity.
Defined.

(** C6.  For every table and every filter selection, filtering the filter's
    own output with the same selection returns that output unchanged, in
    both scripts. *)
Theorem filter_idempotent (df : DataFrame) (w : FilterSpec) :
  bind (Script3.df_filtered df w) (fun out => Script3.df_filtered out w)
    = Script3.df_filtered df w /\
  bind (Script31.df_filtered df w) (fun out => Script31.df_filtered out w)
    = Script31.df_filtered df w.
Proof.
  rewrite (df_filtered3_filter df), (df_filtered31_filter df). simpl.
  rewrite df_filtered3_filter, df_filtered31_filter, filter_filter_same.
  split; reflexivity.
Qed.

(** C7, as stated, fails: on the empty table and on a table of one row the
    correlation statement completes and hands back a matrix; it does not
    raise [InsufficientDataError]. *)
Lemma corr_returns_on_short_input :
  Script31.corr [] = Ok all_nan /\
  Script31.corr [] <> Raise InsufficientDataError /\
  Script31.corr
    [mkRow (mkTimestamp 2024 1 10) "US"%string "USA"%string "Toys"%string
           "Car"%string 2 10 20]
    <> Raise InsufficientDataError.
Proof.
  split; [reflexivity |]. split; discriminate.
Qed.

(** C7, amended.  For every filtered table of fewer than two rows the
    correlation statement completes without raising, and every entry of the
    3x3 matrix it returns is NaN. *)
Theorem corr_short_input_all_nan (f : DataFrame) :
  (List.length f < 2)%nat -> Script31.corr f = Ok all_nan.
Proof.
  intros H. destruct f as [| r [| r' f]]; simpl in H; try lia.
  - reflexivity.
  - unfold Script31.corr, Pandas.corr, col. simpl.
    rewrite !nancorr_pair_single. reflexivity.
Qed.

Lemma corr_short_input_all_nan_witness :
  Script31.corr
    [mkRow (mkTimestamp 2024 1 10) "US"%string "USA"%string "Toys"%string
           "Car"%string 2 10 20]
  = Ok all_nan.
Proof.
  apply corr_short_input_all_nan. simpl. lia.
Defined.

(** C8, as stated, fails: over the empty table the "Avg Price" metric shows
    the text "$nan", which is neither blank nor what it shows for zero. *)
Lemma avg_price_empty_shows_nan :
  Script31.kpi3_metric (Script31.avg_price []) = "$nan"%string /\
  Script3.kpi3_metric (Script3.avg_price []) = "$nan"%string /\
  ~ blank_or_zero (Script31.kpi3_metric (Script31.avg_price [])).
Proof.
  split; [reflexivity |]. split; [reflexivity |].
  intros [H | H].
  - inversion H as [| c l Hc _]. discriminate Hc.
  - vm_compute in H. discriminate H.
Qed.

(** C8, amended.  Over the empty table the average unit price is computed
    without any fault: both scripts get NaN, the undefined value, and their
    "Avg Price" metric shows it as the text "$nan". *)
Theorem avg_price_empty_is_nan :
  Script3.avg_price [] = NaN /\
  Script31.avg_price [] = NaN /\
  Script3.kpi3_metric (Script3.avg_price []) = "$nan"%string /\
  Script31.kpi3_metric (Script31.avg_price []) = "$nan"%string.
Proof.
  repeat split.
Qed.

(** C9.  On the same table and the same filter selection the two scripts
    compute the same filtered table, and on the same filtered table the same
    three KPI values: total sales, total units and average price. *)
Theorem scripts_agree (df : DataFrame) (w : FilterSpec) :
  Script3.df_filtered df w = Script31.df_filtered df w /\
  (forall f,
     Script3.total_sales f = Script31.total_sales f /\
     Script3.total_units f = Script31.total_units f /\
     Script3.avg_price f = Script31.avg_price f).
Proof.
  split.
  - now rewrite df_filtered3_filter, df_filtered31_filter.
  - intros f. repeat split.
Qed.

(** C10.  For every filtered table and every categorical dimension, the
    rows of the group-wise sum come in strictly ascending order of the key,
    in both scripts. *)
Theorem categorical_groups_ascending (level : Dimension) (f : DataFrame) :
  StronglySorted str_lt (map fst (Script3.sales_by level f)) /\
  StronglySorted str_lt (map fst (Script31.sales_by level f)).
Proof.
  unfold Script3.sales_by, Script31.sales_by.
  rewrite groupby_sum_keys. split; apply string_keys_ascending.
Qed.

(** ** Further properties of the filter *)

Lemma filter_all {A : Type} (f : A -> bool) (l : list A) :
  (forall x, In x l -> f x = true) -> filter f l = l.
Proof.
  induction l as [| x l IH]; intros H; simpl; [reflexivity |].
  rewrite (H x) by now left.
  rewrite IH; [reflexivity |]. intros y Hy. apply H. now right.
Qed.

Lemma filter_narrow {A : Type} (f g : A -> bool) (l : list A) :
  (forall x, g x = true -> f x = true) ->
  filter g (filter f l) = filter g l.
Proof.
  intros H. induction l as [| x l IH]; simpl; [reflexivity |].
  destruct (f x) eqn:Ef; simpl.
  - now rewrite IH.
  - destruct (g x) eqn:Eg; [| exact IH].
    apply H in Eg. congruence.
Qed.

Lemma filter_swap {A : Type} (f g : A -> bool) (l : list A) :
  filter g (filter f l) = filter f (filter g l).
Proof.
  induction l as [| x l IH]; simpl; [reflexivity |].
  destruct (f x) eqn:Ef, (g x) eqn:Eg; simpl;
    rewrite ?Ef, ?Eg, IH; reflexivity.
Qed.

Lemma fold_min_le (rest : list Timestamp) (x : Timestamp) :
  let m := fold_left (fun m y => if ts_leb y m then y else m) rest x in
  ts_leb m x = true /\ forall y, In y rest -> ts_leb m y = true.
Proof.
  cbv zeta. revert x. induction rest as [| z rest IH]; intros x; simpl.
  - split; [| tauto]. apply ts_leb_lt_or_eq. now right.
  - destruct (ts_leb z x) eqn:E.
    + destruct (IH z) as [Hz Hrest]. split.
      * exact (ts_leb_trans _ _ _ Hz E).
      * intros y [<- | Hy]; auto.
    + destruct (IH x) as [Hx Hrest]. split; [assumption |].
      intros y [<- | Hy]; auto.
      destruct (ts_leb_total z x) as [H | H]; [congruence |].
      exact (ts_leb_trans _ _ _ Hx H).
Qed.

Lemma fold_max_ge (rest : list Timestamp) (x : Timestamp) :
  let m := fold_left (fun m y => if ts_leb m y then y else m) rest x in
  ts_leb x m = true /\ forall y, In y rest -> ts_leb y m = true.
Proof.
  cbv zeta. revert x. induction rest as [| z rest IH]; intros x; simpl.
  - split; [| tauto]. apply ts_leb_lt_or_eq. now right.
  - destruct (ts_leb x z) eqn:E.
    + destruct (IH z) as [Hz Hrest]. split.
      * exact (ts_leb_trans _ _ _ E Hz).
      * intros y [<- | Hy]; auto.
    + destruct (IH x) as [Hx Hrest]. split; [assumption |].
      intros y [<- | Hy]; auto.
      destruct (ts_leb_total x z) as [H | H]; [congruence |].
      exact (ts_leb_trans _ _ _ H Hx).
Qed.

Lemma date_min_le (s : Series Timestamp) (m : Timestamp) :
  Widgets.date_min s = Some m -> forall y, In y s -> ts_leb m y = true.
Proof.
  destruct s as [| x rest]; simpl; [discriminate |].
  intros E y Hy. inversion E; subst; clear E.
  destruct (fold_min_le rest x) as [Hx Hrest].
  destruct Hy as [<- | Hy]; auto.
Qed.

Lemma date_max_ge (s : Series Timestamp) (m : Timestamp) :
  Widgets.date_max s = Some m -> forall y, In y s -> ts_leb y m = true.
Proof.
  destruct s as [| x rest]; simpl; [discriminate |].
  intros E y Hy. inversion E; subst; clear E.
  destruct (fold_max_ge rest x) as [Hx Hrest].
  destruct Hy as [<- | Hy]; auto.
Qed.

Lemma Series_unique_In (s : Series string) (x : string) :
  In x (Widgets.Series_unique s) <-> In x s.
Proof.
  unfold Widgets.Series_unique.
  rewrite (unique_In String.eqb String.eqb_eq). simpl. tauto.
Qed.

(** X1.  On a table with at least one row the widgets start out with a
    selection, and under that selection the filter of both scripts returns
    the whole table, unchanged. *)
Theorem initial_selection_keeps_all (df : DataFrame) :
  df <> [] ->
  exists w,
    Widgets.initial_selection df = Some w /\
    Script3.df_filtered df w = Ok df /\
    Script31.df_filtered df w = Ok df.
Proof.
  intros Hne. unfold Widgets.initial_selection.
  destruct (Widgets.date_min (col Date df)) as [lo |] eqn:Elo;
    [| destruct df; [contradiction | discriminate]].
  destruct (Widgets.date_max (col Date df)) as [hi |] eqn:Ehi;
    [| destruct df; [contradiction | discriminate]].
  eexists. split; [reflexivity |].
  rewrite df_filtered3_filter, df_filtered31_filter.
  rewrite filter_all; [split; reflexivity |].
  intros r Hr. apply row_mask_selected. unfold selected, col. simpl.
  repeat split.
  - apply Series_unique_In, in_map, Hr.
  - apply Series_unique_In, in_map, Hr.
  - apply Series_unique_In, in_map, Hr.
  - apply ts_leb_le, (date_min_le _ _ Elo), in_map, Hr.
  - apply ts_leb_le, (date_max_ge _ _ Ehi), in_map, Hr.
Qed.

Lemma initial_selection_keeps_all_witness :
  exists w,
    Widgets.initial_selection scenario = Some w /\
    Script3.df_filtered scenario w = Ok scenario /\
    Script31.df_filtered scenario w = Ok scenario.
Proof.
  apply (initial_selection_keeps_all scenario). discriminate.
Defined.

Lemma ts_le_trans (a b c : Timestamp) : ts_le a b -> ts_le b c -> ts_le a c.
Proof.
  rewrite <- !ts_leb_le. intros H1 H2. exact (ts_leb_trans _ _ _ H1 H2).
Qed.

(** X2.  Narrowing a selection and filtering again is the same as filtering
    once with the narrower selection: when every value selected by [w'] is
    selected by [w] and the dates of [w'] lie within those of [w], the rows
    kept by [w'] out of the rows kept by [w] are the rows kept by [w'] out
    of the whole table. *)
Theorem filter_narrowed_selection (df : DataFrame) (w w' : FilterSpec) :
  incl (regions w') (regions w) ->
  incl (countries w') (countries w) ->
  incl (categories w') (categories w) ->
  ts_le (start_date w) (start_date w') ->
  ts_le (end_date w') (end_date w) ->
  bind (Script3.df_filtered df w) (fun f => Script3.df_filtered f w')
    = Script3.df_filtered df w' /\
  bind (Script31.df_filtered df w) (fun f => Script31.df_filtered f w')
    = Script31.df_filtered df w'.
Proof.
  intros Hr Hc Hp Hlo Hhi.
  rewrite (df_filtered3_filter df w), (df_filtered31_filter df w). simpl.
  rewrite ?df_filtered3_filter, ?df_filtered31_filter.
  rewrite filter_narrow; [split; reflexivity |].
  intros r H. apply row_mask_selected in H. apply row_mask_selected.
  destruct H as (H1 & H2 & H3 & H4 & H5). repeat split.
  - now apply Hr.
  - now apply Hc.
  - now apply Hp.
  - eapply ts_le_trans; eassumption.
  - eapply ts_le_trans; eassumption.
Qed.

Lemma filter_narrowed_selection_witness :
  let w' := mkFilterSpec ["US"%string] ["USA"%string] ["Toys"%string]
              (mkTimestamp 2024 2 1) (mkTimestamp 2024 2 29) in
  bind (Script3.df_filtered scenario scenario_selection)
       (fun f => Script3.df_filtered f w')
    = Script3.df_filtered scenario w' /\
  bind (Script31.df_filtered scenario scenario_selection)
       (fun f => Script31.df_filtered f w')
    = Script31.df_filtered scenario w'.
Proof.
  intros w'. apply (filter_narrowed_selection scenario scenario_selection w').
  - intros x [<- | []]. simpl. auto.
  - intros x [<- | []]. simpl. auto.
  - intros x [<- | []]. simpl. auto.
  - discriminate.
  - discriminate.
Defined.

(** X3.  Two selections can be applied in either order: filtering by [w]
    and then by [w'] gives the same rows, in the same order, as filtering by
    [w'] and then by [w]. *)
Theorem filters_commute (df : DataFrame) (w w' : FilterSpec) :
  bind (Script3.df_filtered df w) (fun f => Script3.df_filtered f w')
    = bind (Script3.df_filtered df w') (fun f => Script3.df_filtered f w) /\
  bind (Script31.df_filtered df w) (fun f => Script31.df_filtered f w')
    = bind (Script31.df_filtered df w')
           (fun f => Script31.df_filtered f w).
Proof.
  rewrite (df_filtered3_filter df w), (df_filtered31_filter df w),
          (df_filtered3_filter df w'), (df_filtered31_filter df w').
  simpl. rewrite ?df_filtered3_filter, ?df_filtered31_filter.
  rewrite filter_swap. split; reflexivity.
Qed.

(** X4.  Only the set of selected values matters: two selections with the
    same dates whose regions, countries and categories have the same
    members, in whatever order and with whatever repetitions, keep the same
    rows. *)
Theorem selection_order_irrelevant (df : DataFrame) (w w' : FilterSpec) :
  (forall x, In x (regions w) <-> In x (regions w')) ->
  (forall x, In x (countries w) <-> In x (countries w')) ->
  (forall x, In x (categories w) <-> In x (categories w')) ->
  start_date w = start_date w' ->
  end_date w = end_date w' ->
  Script3.df_filtered df w = Script3.df_filtered df w' /\
  Script31.df_filtered df w = Script31.df_filtered df w'.
Proof.
  intros Hr Hc Hp Hlo Hhi.
  rewrite ?df_filtered3_filter, ?df_filtered31_filter.
  assert (E : filter (row_mask w) df = filter (row_mask w') df).
  { apply filter_ext. intros r.
    destruct (row_mask w r) eqn:E1, (row_mask w' r) eqn:E2; try reflexivity.
    - apply row_mask_selected in E1.
      assert (H : selected w' r).
      { unfold selected in *. rewrite <- Hr, <- Hc, <- Hp, <- Hlo, <- Hhi.
        exact E1. }
      apply row_mask_selected in H. congruence.
    - apply row_mask_selected in E2.
      assert (H : selected w r).
      { unfold selected in *. rewrite Hr, Hc, Hp, Hlo, Hhi. exact E2. }
      apply row_mask_selected in H. congruence. }
  rewrite E. split; reflexivity.
Qed.

Lemma selection_order_irrelevant_witness :
  let w' := mkFilterSpec ["US"%string; "US"%string]
              ["DE"%string; "USA"%string]
              ["Books"%string; "Toys"%string; "Books"%string]
              (mkTimestamp 2024 1 1) (mkTimestamp 2024 12 31) in
  Script3.df_filtered scenario scenario_selection
    = Script3.df_filtered scenario w' /\
  Script31.df_filtered scenario scenario_selection
    = Script31.df_filtered scenario w'.
Proof.
  intros w'. apply (selection_order_irrelevant scenario scenario_selection w');
    try reflexivity; intros x; simpl; tauto.
Defined.

(** X5.  The filter works row by row: the rows kept from two tables put one
    after the other are the rows kept from the first followed by the rows
    kept from the second. *)
Theorem filter_of_appended (a b : DataFrame) (w : FilterSpec) :
  Script3.df_filtered (a ++ b) w
    = bind (Script3.df_filtered a w)
        (fun fa => bind (Script3.df_filtered b w)
                     (fun fb => Ok (fa ++ fb))) /\
  Script31.df_filtered (a ++ b) w
    = bind (Script31.df_filtered a w)
        (fun fa => bind (Script31.df_filtered b w)
                     (fun fb => Ok (fa ++ fb))).
Proof.
  rewrite ?df_filtered3_filter, ?df_filtered31_filter. simpl.
  rewrite filter_app. split; reflexivity.
Qed.

(** ** Further properties of the KPIs *)

Lemma wrap64_small (z : Z) : - 2 ^ 63 <= z < 2 ^ 63 -> wrap64 z = z.
Proof.
  intros H. unfold wrap64. rewrite Z.mod_small; lia.
Qed.

Lemma Zsum_nonneg (l : list Z) : Forall (fun x => 0 <= x) l -> 0 <= Zsum l.
Proof.
  induction 1 as [| x l Hx _ IH]; simpl; lia.
Qed.

Lemma sum_int_exact (l : list Z) (acc : Z) :
  Forall (fun x => 0 <= x) l -> 0 <= acc -> acc + Zsum l < 2 ^ 63 ->
  fold_left (fun a x => wrap64 (a + x)) l acc = acc + Zsum l.
Proof.
  intros H. revert acc. induction H as [| x l Hx Hl IH]; intros acc Ha Hb.
  - simpl. lia.
  - simpl in *. pose proof (Zsum_nonneg l Hl) as Hs.
    rewrite wrap64_small by lia. rewrite IH by lia. lia.
Qed.

(** X6.  When no row has a negative unit count and the true total is below
    2^63, the "Units Sold" figure of both scripts is the true total: the
    64-bit sum does not wrap. *)
Theorem total_units_exact (f : DataFrame) :
  (forall r, In r f -> 0 <= UnitsSold r) ->
  Zsum (map UnitsSold f) < 2 ^ 63 ->
  Script3.total_units f = Zsum (map UnitsSold f) /\
  Script31.total_units f = Zsum (map UnitsSold f).
Proof.
  intros Hpos Hlt.
  assert (E : sum_int (col UnitsSold f) = Zsum (map UnitsSold f)).
  { unfold sum_int, col. rewrite sum_int_exact; try lia.
    apply Forall_forall. intros x Hx. apply in_map_iff in Hx.
    destruct Hx as [r [<- Hr]]. now apply Hpos. }
  split; exact E.
Qed.

Lemma total_units_exact_witness :
  Script3.total_units scenario = Zsum (map UnitsSold scenario) /\
  Script31.total_units scenario = Zsum (map UnitsSold scenario).
Proof.
  apply (total_units_exact scenario).
  - intros r [<- | [<- | [<- | []]]]; simpl; lia.
  - reflexivity.
Defined.

(** ** Further properties of the group-wise sums *)

Lemma sales_over_time_groups (time_agg : TimeAgg) (f : DataFrame) :
  Script3.sales_over_time time_agg f
  = map (fun k =>
           (k, sum (map TotalSales
                      (filter
                         (fun r => ts_eqb (period_start time_agg (Date r)) k)
                         f))))
        (TimestampSort.sort
           (unique ts_eqb []
              (map (fun r => period_start time_agg (Date r)) f))).
Proof.
  unfold Script3.sales_over_time, groupby_sum, group.
  rewrite df_time_periods, map_map. simpl.
  apply map_ext. intros k.
  rewrite filter_map_comm, map_map. reflexivity.
Qed.

Lemma time_series_keys (time_agg : TimeAgg) (f : DataFrame) (p : Timestamp) :
  In p (map fst (Script3.sales_over_time time_agg f)) <->
  exists r, In r f /\ period_start time_agg (Date r) = p.
Proof.
  rewrite sales_over_time_groups, map_map. simpl. rewrite map_id.
  rewrite (group_keys_In ts_eqb _ ts_eqb_eq TimestampSort.Permuted_sort).
  rewrite in_map_iff. split; intros [r [H1 H2]]; eauto.
Qed.

Lemma sales_by_In (level : Dimension) (f : DataFrame) (k : string) (v : Q) :
  In (k, v) (Script3.sales_by level f) <->
  (exists r, In r f /\ dimension_col level r = k) /\
  v = sum (map TotalSales
             (filter (fun r => String.eqb (dimension_col level r) k) f)).
Proof.
  unfold Script3.sales_by.
  apply (groupby_sum_In String.eqb _ String.eqb_eq StringSort.Permuted_sort).
Qed.


Lemma sales_by_key_row (level : Dimension) (f : DataFrame) (k : string) :
  In k (map fst (Script3.sales_by level f)) ->
  exists r, In r f /\ dimension_col level r = k.
Proof.
  intros H. apply in_map_iff in H. destruct H as [[k' v] [E H]].
  simpl in E. subst k'.
  apply (proj1 (sales_by_In level f k v)) in H.
  tauto.
Qed.

(** X10.  Aggregating the filtered table never shows a value that was not
    selected: the keys of the sums by region, by country and by category are
    among the selected regions, countries and categories, and every day of
    the daily series lies between the two selected dates. *)
Theorem aggregated_keys_are_selected (df f : DataFrame) (w : FilterSpec) :
  Script3.df_filtered df w = Ok f ->
  (forall k, In k (map fst (Script3.sales_by ByRegion f)) ->
             In k (regions w)) /\
  (forall k, In k (map fst (Script3.sales_by ByCountry f)) ->
             In k (countries w)) /\
  (forall k, In k (map fst (Script3.sales_by ByProductCategory f)) ->
             In k (categories w)) /\
  (forall d, In d (map fst (Script3.sales_over_time Day f)) ->
             ts_le (start_date w) d /\ ts_le d (end_date w)).
Proof.
  intros E. rewrite df_filtered3_filter in E. inversion E; subst. clear E.
  assert (Hsel : forall r, In r (filter (row_mask w) df) -> selected w r).
  { intros r Hr. apply filter_In in Hr. now apply row_mask_selected. }
  split; [| split; [| split]]; intros k H.
  - apply sales_by_key_row in H. destruct H as [r [Hr <-]].
    apply (Hsel r Hr).
  - apply sales_by_key_row in H. destruct H as [r [Hr <-]].
    apply (Hsel r Hr).
  - apply sales_by_key_row in H. destruct H as [r [Hr <-]].
    apply (Hsel r Hr).
  - destruct (time_series_keys Day (filter (row_mask w) df) k) as [Hk _].
    destruct (Hk H) as [r [Hr <-]]. split; apply (Hsel r Hr).
Qed.

Lemma aggregated_keys_are_selected_witness :
  let f := firstn 2 scenario in
  let w := scenario_selection in
  (forall k, In k (map fst (Script3.sales_by ByRegion f)) ->
             In k (regions w)) /\
  (forall k, In k (map fst (Script3.sales_by ByCountry f)) ->
             In k (countries w)) /\
  (forall k, In k (map fst (Script3.sales_by ByProductCategory f)) ->
             In k (categories w)) /\
  (forall d, In d (map fst (Script3.sales_over_time Day f)) ->
             ts_le (start_date w) d /\ ts_le d (end_date w)).
Proof.
  intros f w. apply (aggregated_keys_are_selected scenario f w).
  reflexivity.
Defined.

(** X12.  A categorical group-wise sum has as many rows as the filtered
    table has distinct values of the key, which is never more than the
    number of filtered rows. *)
Theorem sales_by_row_count (level : Dimension) (f : DataFrame) :
  List.length (Script3.sales_by level f)
    = List.length (nodup string_dec (map (dimension_col level) f)) /\
  (List.length (Script3.sales_by level f) <= List.length f)%nat.
Proof.
  assert (E : List.length (Script3.sales_by level f)
              = List.length (nodup string_dec (map (dimension_col level) f))).
  { unfold Script3.sales_by.
    rewrite groupby_sum_length by exact StringSort.Permuted_sort.
    apply unique_length_nodup. }
  split; [exact E |]. rewrite E.
  rewrite <- (length_map (dimension_col level) f).
  apply NoDup_incl_length; [apply NoDup_nodup |].
  intros x Hx. now apply nodup_In in Hx.
Qed.

Lemma strictly_sorted_unique {K : Type} (lt : K -> K -> Prop)
  (l1 l2 : list K) :
  (forall a, ~ lt a a) -> (forall a b c, lt a b -> lt b c -> lt a c) ->
  StronglySorted lt l1 -> StronglySorted lt l2 ->
  (forall x, In x l1 <-> In x l2) -> l1 = l2.
Proof.
  intros Hirr Htr HS1. revert l2.
  induction HS1 as [| a l1 HS1 IH Ha]; intros l2 HS2 Hin.
  - destruct l2 as [| b l2]; [reflexivity |].
    exfalso. apply (proj2 (Hin b)). now left.
  - destruct HS2 as [| b l2 HS2 Hb].
    + exfalso. apply (proj1 (Hin a)). now left.
    + rewrite Forall_forall in Ha, Hb.
      assert (E : a = b).
      { destruct (proj1 (Hin a) (or_introl eq_refl)) as [E | Ha2];
          [now symmetry |].
        destruct (proj2 (Hin b) (or_introl eq_refl)) as [E | Hb1];
          [assumption |].
        exfalso. apply (Hirr a). eapply Htr; [apply Ha | apply Hb]; eassumption. }
      subst b. f_equal. apply IH; [assumption |].
      intros x. split; intros Hx.
      * destruct (proj1 (Hin x) (or_intror Hx)) as [E | H]; [| assumption].
        subst x. exfalso. exact (Hirr a (Ha a Hx)).
      * destruct (proj2 (Hin x) (or_intror Hx)) as [E | H]; [| assumption].
        subst x. exfalso. exact (Hirr a (Hb a Hx)).
Qed.

Lemma categorical_keys_sorted (level : Dimension) (f : DataFrame) :
  StronglySorted str_lt (map fst (Script3.sales_by level f)).
Proof.
  unfold Script3.sales_by. rewrite groupby_sum_keys.
  apply string_keys_ascending.
Qed.

(** X14.  The keys of a categorical group-wise sum, and the order they come
    in, do not depend on the order of the rows of the filtered table: two
    tables with the same rows in different orders give the same keys in the
    same order, and under each key the same rows are added up. *)
Theorem sales_by_ignores_row_order (level : Dimension) (f f' : DataFrame) :
  Permutation f f' ->
  map fst (Script3.sales_by level f) = map fst (Script3.sales_by level f') /\
  (forall k,
     Permutation
       (filter (fun r => String.eqb (dimension_col level r) k) f)
       (filter (fun r => String.eqb (dimension_col level r) k) f')).
Proof.
  intros HP. split.
  - apply (strictly_sorted_unique str_lt).
    + exact str_lt_irrefl.
    + exact str_lt_trans.
    + apply categorical_keys_sorted.
    + apply categorical_keys_sorted.
    + intros k. unfold Script3.sales_by. rewrite !groupby_sum_keys.
      rewrite !(group_keys_In String.eqb _ String.eqb_eq
                  StringSort.Permuted_sort).
      split; apply Permutation_in.
      * now apply Permutation_map.
      * now apply Permutation_map, Permutation_sym.
  - intros k. induction HP as [| x l l' _ IH | x y l | l l' l'' _ IH1 _ IH2];
      simpl.
    + constructor.
    + destruct (String.eqb (dimension_col level x) k);
        [now constructor | assumption].
    + destruct (String.eqb (dimension_col level x) k),
               (String.eqb (dimension_col level y) k);
        try reflexivity. constructor.
    + etransitivity; eassumption.
Qed.

Lemma sales_by_ignores_row_order_witness :
  map fst (Script3.sales_by ByRegion scenario)
    = map fst (Script3.sales_by ByRegion (rev scenario)) /\
  (forall k,
     Permutation
       (filter (fun r => String.eqb (dimension_col ByRegion r) k) scenario)
       (filter (fun r => String.eqb (dimension_col ByRegion r) k)
               (rev scenario))).
Proof.
  apply (sales_by_ignores_row_order ByRegion scenario (rev scenario)).
  apply Permutation_rev.
Defined.

(** ** Further properties of the ranking *)

Lemma StronglySorted_app_cross {A : Type} (R : A -> A -> Prop)
  (l1 l2 : list A) :
  StronglySorted R (l1 ++ l2) ->
  forall x y, In x l1 -> In y l2 -> R x y.
Proof.
  induction l1 as [| a l1 IH]; simpl; intros HS x y Hx Hy; [destruct Hx |].
  inversion HS as [| ? ? HS' Hall]; subst.
  destruct Hx as [<- | Hx].
  - rewrite Forall_forall in Hall. apply Hall, in_or_app. now right.
  - now apply IH.
Qed.

Lemma by_product_length (f : DataFrame) :
  List.length (groupby_sum String.eqb StringSort.sort Product TotalSales f)
  = List.length (nodup string_dec (map Product f)).
Proof.
  rewrite groupby_sum_length by exact StringSort.Permuted_sort.
  apply unique_length_nodup.
Qed.

(** X15.  No product left out of the top-N view outsells a product shown in
    it: whatever sort with the contract of [sort_values(ascending=False)] is
    used, the total of every product that does not appear is at most the
    total of every product that does. *)
Theorem top_n_outsells_the_rest (impl : SortValues) (f : DataFrame)
  (top_n : nat) (shown hidden : string * Q) :
  In shown (Script31.top_products impl f top_n) ->
  In hidden (groupby_sum String.eqb StringSort.sort Product TotalSales f) ->
  ~ In hidden (Script31.top_products impl f top_n) ->
  (snd hidden <= snd shown)%Q.
Proof.
  unfold Script31.top_products, head.
  set (g := groupby_sum String.eqb StringSort.sort Product TotalSales f).
  set (full := sort_values_desc impl g).
  intros Hs Hh Hn.
  assert (Hfull : In hidden full).
  { eapply Permutation_in; [apply sort_values_perm | exact Hh]. }
  rewrite <- (firstn_skipn top_n full) in Hfull.
  apply in_app_or in Hfull. destruct Hfull as [H | H]; [contradiction |].
  pose proof (sort_values_sorted impl g) as HS. fold full in HS.
  rewrite <- (firstn_skipn top_n full) in HS.
  exact (StronglySorted_app_cross _ _ _ HS shown hidden Hs H).
Qed.

Lemma top_n_outsells_the_rest_witness :
  (snd ("Atlas"%string, 15%Q) <= snd ("Car"%string, 30%Q))%Q.
Proof.
  apply (top_n_outsells_the_rest numpy_quicksort scenario 1
           ("Car"%string, 30%Q) ("Atlas"%string, 15%Q)).
  - vm_compute. left. reflexivity.
  - vm_compute. left. reflexivity.
  - vm_compute. intros [H | []]. discriminate H.
Defined.

(** X16.  With the slider anywhere in its range of 1 to 10 and at least one
    filtered row, the top-N view is never empty and never longer than ten
    rows, and its first row carries the largest total of all products. *)
Theorem top_n_within_slider (impl : SortValues) (f : DataFrame)
  (top_n : nat) :
  f <> [] -> Widgets.slider_value top_n ->
  exists best rest,
    Script31.top_products impl f top_n = best :: rest /\
    (List.length (best :: rest) <= 10)%nat /\
    (forall kv,
       In kv (groupby_sum String.eqb StringSort.sort Product TotalSales f) ->
       (snd kv <= snd best)%Q).
Proof.
  intros Hne [Hlo Hhi].
  unfold Script31.top_products, head.
  set (g := groupby_sum String.eqb StringSort.sort Product TotalSales f).
  pose proof (sort_values_perm impl g) as HP.
  pose proof (sort_values_sorted impl g) as HS.
  assert (Hlen : (1 <= List.length (sort_values_desc impl g))%nat).
  { rewrite <- (Permutation_length HP). unfold g.
    rewrite by_product_length.
    destruct f as [| r f]; [contradiction |].
    assert (Hin : In (Product r) (nodup string_dec (map Product (r :: f)))).
    { apply nodup_In. now left. }
    destruct (nodup string_dec (map Product (r :: f))); [destruct Hin |].
    simpl. lia. }
  destruct (sort_values_desc impl g) as [| best full] eqn:E;
    [simpl in Hlen; lia |].
  destruct top_n as [| n]; [lia |].
  exists best, (firstn n full). split; [reflexivity |]. split.
  - cbn [List.length]. pose proof (firstn_le_length n full). lia.
  - intros kv Hkv.
    apply (Permutation_in _ HP) in Hkv. destruct Hkv as [<- | Hkv].
    + apply Qle_refl.
    + inversion HS as [| ? ? _ Hall]; subst.
      rewrite Forall_forall in Hall. now apply Hall.
Qed.

Lemma top_n_within_slider_witness :
  exists best rest,
    Script31.top_products numpy_quicksort scenario 5 = best :: rest /\
    (List.length (best :: rest) <= 10)%nat /\
    (forall kv,
       In kv (groupby_sum String.eqb StringSort.sort Product TotalSales
                scenario) ->
       (snd kv <= snd best)%Q).
Proof.
  apply (top_n_within_slider numpy_quicksort scenario 5).
  - discriminate.
  - unfold Widgets.slider_value. lia.
Defined.

(** ** Further properties of the correlation matrix *)

Lemma corr_fold_constant_x (c : Q) (vs : list (Q * Q)) (a : corr_acc) :
  Forall (fun v => fst v == c)%Q vs ->
  (ssqdmx a == 0)%Q ->
  (nobs a = 0 /\ (meanx a == 0)%Q) \/ (meanx a == c)%Q ->
  (ssqdmx (fold_left corr_step vs a) == 0)%Q.
Proof.
  intros H. revert a. induction H as [| v vs Hv _ IH]; intros a Hs Hm.
  - exact Hs.
  - simpl. apply IH.
    + unfold corr_step. cbn [ssqdmx meanx nobs]. rewrite Hs, Hv.
      destruct Hm as [[Hn Hm] | Hm]; rewrite Hm.
      * rewrite Hn. simpl. field.
      * ring.
    + right. unfold corr_step. cbn [meanx nobs]. rewrite Hv.
      destruct Hm as [[Hn Hm] | Hm]; rewrite Hm.
      * rewrite Hn. simpl. field.
      * ring.
Qed.

Lemma corr_fold_constant_y (c : Q) (vs : list (Q * Q)) (a : corr_acc) :
  Forall (fun v => snd v == c)%Q vs ->
  (ssqdmy a == 0)%Q ->
  (nobs a = 0 /\ (meany a == 0)%Q) \/ (meany a == c)%Q ->
  (ssqdmy (fold_left corr_step vs a) == 0)%Q.
Proof.
  intros H. revert a. induction H as [| v vs Hv _ IH]; intros a Hs Hm.
  - exact Hs.
  - simpl. apply IH.
    + unfold corr_step. cbn [ssqdmy meany nobs]. rewrite Hs, Hv.
      destruct Hm as [[Hn Hm] | Hm]; rewrite Hm.
      * rewrite Hn. simpl. field.
      * ring.
    + right. unfold corr_step. cbn [meany nobs]. rewrite Hv.
      destruct Hm as [[Hn Hm] | Hm]; rewrite Hm.
      * rewrite Hn. simpl. field.
      * ring.
Qed.

Lemma Forall_combine_fst {A B : Type} (P : A -> Prop) (xs : list A)
  (ys : list B) :
  Forall P xs -> Forall (fun v => P (fst v)) (combine xs ys).
Proof.
  intros H. revert ys. induction H as [| x xs Hx _ IH]; intros [| y ys];
    simpl; constructor; auto.
Qed.

Lemma Forall_combine_snd {A B : Type} (P : B -> Prop) (xs : list A)
  (ys : list B) :
  Forall P ys -> Forall (fun v => P (snd v)) (combine xs ys).
Proof.
  intros H. revert xs. induction H as [| y ys Hy _ IH]; intros [| x xs];
    simpl; constructor; auto.
Qed.

Lemma nancorr_pair_constant_x (c : Q) (xs ys : Series Q) :
  Forall (fun x => x == c)%Q xs -> nancorr_pair 1 xs ys = CorrNaN.
Proof.
  intros H. unfold nancorr_pair.
  destruct (nobs _ <? 1); [reflexivity |].
  replace (Qeq_bool _ 0) with true; [reflexivity |].
  symmetry. apply Qeq_eq_bool.
  rewrite (corr_fold_constant_x c).
  - ring.
  - exact (Forall_combine_fst (fun x => x == c)%Q xs ys H).
  - reflexivity.
  - left. split; reflexivity.
Qed.

Lemma nancorr_pair_constant_y (c : Q) (xs ys : Series Q) :
  Forall (fun y => y == c)%Q ys -> nancorr_pair 1 xs ys = CorrNaN.
Proof.
  intros H. unfold nancorr_pair.
  destruct (nobs _ <? 1); [reflexivity |].
  replace (Qeq_bool _ 0) with true; [reflexivity |].
  symmetry. apply Qeq_eq_bool.
  rewrite (corr_fold_constant_y c).
  - ring.
  - exact (Forall_combine_snd (fun y => y == c)%Q xs ys H).
  - reflexivity.
  - left. split; reflexivity.
Qed.

(** X17.  When every filtered row has the same unit price -- however many
    rows there are -- the correlation statement still completes, and the
    whole "UnitPrice" row and column of the matrix are NaN. *)
Theorem corr_constant_price_is_nan (f : DataFrame) (c : Q) :
  (forall r, In r f -> UnitPrice r == c)%Q ->
  exists uu ut tu tt,
    Script31.corr f
    = Ok [[uu; CorrNaN; ut];
          [CorrNaN; CorrNaN; CorrNaN];
          [tu; CorrNaN; tt]].
Proof.
  intros H.
  assert (Hc : Forall (fun x => x == c)%Q (col UnitPrice f)).
  { apply Forall_forall. intros x Hx. apply in_map_iff in Hx.
    destruct Hx as [r [<- Hr]]. now apply H. }
  unfold Script31.corr, Pandas.corr. cbn [map].
  rewrite !(nancorr_pair_constant_x c _ _ Hc).
  rewrite !(nancorr_pair_constant_y c _ _ Hc).
  repeat eexists.
Qed.

Lemma corr_constant_price_is_nan_witness :
  exists uu ut tu tt,
    Script31.corr (firstn 2 scenario)
    = Ok [[uu; CorrNaN; ut];
          [CorrNaN; CorrNaN; CorrNaN];
          [tu; CorrNaN; tt]].
Proof.
  apply (corr_constant_price_is_nan (firstn 2 scenario) 10%Q).
  intros r [<- | [<- | []]]; reflexivity.
Defined.

(** ** Further properties of the metric texts *)

Definition not_comma (c : ascii) : bool := negb (Ascii.eqb c ","%char).

Lemma strip_commas_list (l : list ascii) :
  Widgets.strip_commas (string_of_list_ascii l)
  = string_of_list_ascii (filter not_comma l).
Proof.
  induction l as [| c l IH]; simpl; [reflexivity |].
  unfold not_comma at 1. destruct (Ascii.eqb c ","%char); simpl;
    now rewrite IH.
Qed.

Lemma thousands_filter (k : nat) (l : list ascii) :
  Forall (fun c => not_comma c = true) l ->
  filter not_comma (Format.thousands k l) = l.
Proof.
  intros H. revert k. induction H as [| c l Hc _ IH]; intros k; simpl.
  - reflexivity.
  - destruct k as [| k]; simpl; rewrite Hc, IH; reflexivity.
Qed.

Lemma thousands_length (k : nat) (l : list ascii) :
  (k <= 3)%nat ->
  List.length (Format.thousands k l)
  = (List.length l + (List.length l + 2 - k) / 3)%nat.
Proof.
  revert k. induction l as [| c l IH]; intros k Hk.
  - destruct k as [| [| [| k]]]; reflexivity.
  - destruct k as [| k]; cbn [Format.thousands List.length].
    + rewrite IH by lia.
      replace (List.length l + 2 - 2)%nat with (List.length l) by lia.
      replace (S (List.length l) + 2 - 0)%nat
        with (List.length l + 1 * 3)%nat by lia.
      rewrite Nat.div_add by lia. lia.
    + rewrite IH by lia.
      replace (S (List.length l) + 2 - S k)%nat
        with (List.length l + 2 - k)%nat by lia.
      lia.
Qed.

Lemma uint_digits_no_comma (d : Decimal.uint) :
  Forall (fun c => not_comma c = true)
         (list_ascii_of_string (DecimalString.NilEmpty.string_of_uint d)).
Proof.
  induction d; simpl; constructor; auto.
Qed.

Lemma digits_no_comma (z : Z) :
  Forall (fun c => not_comma c = true) (Format.digits z).
Proof.
  unfold Format.digits, DecimalString.NilZero.string_of_uint.
  destruct (N.to_uint (Z.to_N z)) eqn:E;
    try (rewrite <- E; apply uint_digits_no_comma).
  repeat constructor.
Qed.

Lemma with_commas_stripped (z : Z) :
  Widgets.strip_commas (Format.with_commas z)
  = string_of_list_ascii (Format.digits z).
Proof.
  unfold Format.with_commas.
  rewrite strip_commas_list, filter_rev, thousands_filter, rev_involutive.
  - reflexivity.
  - apply Forall_rev, digits_no_comma.
Qed.

(** X18.  The "Units Sold" text is the plain decimal numeral of the figure
    with separators put in and nothing else changed: taking the commas out
    gives back the numeral, sign included, and a figure of [d] digits
    carries [(d - 1) / 3] commas. *)
Theorem units_text_is_the_numeral (n : Z) :
  Widgets.strip_commas (Widgets.kpi2_metric n)
    = DecimalString.NilZero.string_of_int (Z.to_int n) /\
  List.length (list_ascii_of_string (Format.with_commas (Z.abs n)))
    = (List.length (Format.digits (Z.abs n))
       + (List.length (Format.digits (Z.abs n)) - 1) / 3)%nat.
Proof.
  split.
  - unfold Widgets.kpi2_metric, Widgets.comma_d.
    destruct n as [| p | p].
    + reflexivity.
    + change (Z.pos p <? 0) with false.
      change (Z.abs (Z.pos p)) with (Z.pos p).
      cbn [String.append].
      rewrite with_commas_stripped. unfold Format.digits.
      rewrite string_of_list_ascii_of_string. reflexivity.
    + change (Z.neg p <? 0) with true.
      change (Z.abs (Z.neg p)) with (Z.pos p).
      cbn [String.append Widgets.strip_commas].
      change (Ascii.eqb "-"%char ","%char) with false. cbv iota.
      rewrite with_commas_stripped. unfold Format.digits.
      rewrite string_of_list_ascii_of_string. reflexivity.
  - unfold Format.with_commas.
    rewrite list_ascii_of_string_of_list_ascii, length_rev.
    rewrite thousands_length by lia. rewrite length_rev.
    f_equal. f_equal. lia.
Qed.

(** X19.  With nothing selected -- an empty set of regions, countries or
    categories, or an end date before the start date -- the three metrics
    are still drawn, without any fault: they read "$0", "0" and "$nan". *)
Theorem metrics_of_empty_selection (df : DataFrame) (w : FilterSpec) :
  regions w = [] \/ countries w = [] \/ categories w = [] \/
  ts_lt (end_date w) (start_date w) ->
  exists f,
    Script3.df_filtered df w = Ok f /\
    Script31.df_filtered df w = Ok f /\
    Widgets.kpi1_metric (Script3.total_sales f) = "$0"%string /\
    Widgets.kpi2_metric (Script3.total_units f) = "0"%string /\
    Script3.kpi3_metric (Script3.avg_price f) = "$nan"%string.
Proof.
  intros H. exists [].
  rewrite df_filtered3_filter, df_filtered31_filter.
  rewrite filter_none by now apply row_mask_rejects_all.
  repeat split.
Qed.

Lemma metrics_of_empty_selection_witness :
  exists f,
    Script3.df_filtered scenario
      (mkFilterSpec ["US"%string] [] ["Toys"%string]
         (mkTimestamp 2024 1 1) (mkTimestamp 2024 12 31)) = Ok f /\
    Script31.df_filtered scenario
      (mkFilterSpec ["US"%string] [] ["Toys"%string]
         (mkTimestamp 2024 1 1) (mkTimestamp 2024 12 31)) = Ok f /\
    Widgets.kpi1_metric (Script3.total_sales f) = "$0"%string /\
    Widgets.kpi2_metric (Script3.total_units f) = "0"%string /\
    Script3.kpi3_metric (Script3.avg_price f) = "$nan"%string.
Proof.
  apply (metrics_of_empty_selection scenario).
  right. left. reflexivity.
Defined.

(** X20.  Grouping by month never gives more points than grouping by day,
    and grouping by day never gives more points than there are filtered
    rows. *)
Theorem month_series_no_longer_than_day (f : DataFrame) :
  (List.length (Script3.sales_over_time Month f)
   <= List.length (Script3.sales_over_time Day f))%nat /\
  (List.length (Script3.sales_over_time Day f) <= List.length f)%nat.
Proof.
  rewrite !sales_over_time_groups, !length_map.
  set (months := TimestampSort.sort
                   (unique ts_eqb []
                      (map (fun r => period_start Month (Date r)) f))).
  set (days := TimestampSort.sort
                 (unique ts_eqb []
                    (map (fun r => period_start Day (Date r)) f))).
  assert (NDm : NoDup months)
    by apply (group_keys_NoDup ts_eqb _ ts_eqb_eq TimestampSort.Permuted_sort).
  assert (NDd : NoDup days)
    by apply (group_keys_NoDup ts_eqb _ ts_eqb_eq TimestampSort.Permuted_sort).
  split.
  - rewrite <- (length_map (period_start Month) days).
    apply NoDup_incl_length; [exact NDm |].
    intros p Hp. unfold months in Hp.
    apply (proj1 (group_keys_In ts_eqb _ ts_eqb_eq
                    TimestampSort.Permuted_sort _ _)) in Hp.
    apply (proj1 (in_map_iff _ _ _)) in Hp. destruct Hp as [r [<- Hr]].
    apply in_map_iff. exists (Date r). split; [reflexivity |].
    apply (group_keys_In ts_eqb _ ts_eqb_eq TimestampSort.Permuted_sort).
    apply in_map_iff. exists r. split; [reflexivity | exact Hr].
  - rewrite <- (length_map (fun r => period_start Day (Date r)) f).
    apply NoDup_incl_length; [exact NDd |].
    intros p Hp. unfold days in Hp.
    exact (proj1 (group_keys_In ts_eqb _ ts_eqb_eq
                    TimestampSort.Permuted_sort _ _) Hp).
Qed.
